(** * Aalay configuration validator (validate-config.py)

    A shallow embedding of [ConfigValidator] and [main], and the properties
    of the pre-flight report that follow from the code.

    Python [str] values are sequences of Unicode code points; the three
    result lists of the validator and the printed lines are threaded
    through a small state-and-exception monad; the project directory is a
    record of what [Path.exists], [open] and [json.load] answer or raise,
    and [print] raises on a line that UTF-8 cannot encode. *)

From Stdlib Require Import ZArith NArith List String Ascii DecimalString.
From Stdlib Require Import PrimFloat Uint63.
From stdpp Require Import base option list gmap.

Local Open Scope N_scope.

(* ===================================================================== *)
(** ** Python strings *)
(* ===================================================================== *)

Module PyStr.

(** A [str] is a list of code points. *)
Abbreviation pystr := (list N).

(** Decoding of the UTF-8 bytes of a literal, so that the messages below
    are written as in the source. [need] continuation bytes are still
    expected for the code point accumulated in [acc]. *)
Fixpoint utf8_decode (need : nat) (acc : N) (bs : list N) : pystr :=
  match bs with
  | [] => []
  | b :: t =>
      match need with
      | S k =>
          let acc' := acc * 64 + b mod 64 in
          match k with
          | O => acc' :: utf8_decode O 0 t
          | S _ => utf8_decode k acc' t
          end
      | O =>
          if b <? 128 then b :: utf8_decode O 0 t
          else if b <? 224 then utf8_decode 1 (b mod 32) t
          else if b <? 240 then utf8_decode 2 (b mod 16) t
          else utf8_decode 3 (b mod 8) t
      end
  end.

Definition py (s : string) : pystr :=
  utf8_decode O 0 (map N_of_ascii (list_ascii_of_string s)).

Arguments py s%_string.

(** The code points [str.strip()] removes: those for which
    [str.isspace()] holds. *)
Definition is_space (c : N) : bool :=
  ((9 <=? c) && (c <=? 13))
  || ((28 <=? c) && (c <=? 32))
  || (c =? 133) || (c =? 160) || (c =? 5760)
  || ((8192 <=? c) && (c <=? 8202))
  || (c =? 8232) || (c =? 8233) || (c =? 8239) || (c =? 8287)
  || (c =? 12288).

Fixpoint lstrip (s : pystr) : pystr :=
  match s with
  | [] => []
  | c :: t => if is_space c then lstrip t else s
  end.

Definition rstrip (s : pystr) : pystr := rev (lstrip (rev s)).

(** [s.strip()] *)
Definition strip (s : pystr) : pystr := rstrip (lstrip s).

(** [s.startswith(prefix)] *)
Fixpoint startswith (s prefix : pystr) {struct prefix} : bool :=
  match prefix, s with
  | [], _ => true
  | p :: prefix', c :: s' => (c =? p) && startswith s' prefix'
  | _ :: _, [] => false
  end.

(** [sub in s] *)
Fixpoint contains (sub s : pystr) : bool :=
  startswith s sub
  || match s with
     | [] => false
     | _ :: s' => contains sub s'
     end.

(** [s.split(sep, 1)] for a non-empty [sep]: one piece when [sep] does not
    occur, otherwise the text before and the text after its first
    occurrence. *)
Fixpoint split1 (sep s : pystr) : list pystr :=
  if startswith s sep then [[]; drop (length sep) s]
  else match s with
       | [] => [[]]
       | c :: s' =>
           match split1 sep s' with
           | h :: rest => (c :: h) :: rest
           | [] => []
           end
       end.

(** [str(n)] for a length. *)
Definition str_of_nat (n : nat) : pystr :=
  py (NilZero.string_of_uint (Nat.to_uint n)).

(** Truth value of a [str]: non-empty. *)
Definition nonempty (s : pystr) : bool :=
  match s with
  | [] => false
  | _ :: _ => true
  end.

Definition eqb (a b : pystr) : bool := bool_decide (a = b).

(** The code points UTF-8 refuses: the surrogates, which a [str] may
    hold alone (from a JSON escape, or from a file name that does not
    decode). *)
Definition is_surrogate (c : N) : bool := (55296 <=? c) && (c <=? 57343).

(** [s.encode('utf-8')] succeeds. *)
Definition encodable (s : pystr) : bool :=
  forallb (fun c => negb (is_surrogate c)) s.

End PyStr.

Import PyStr.

Definition nl : pystr := [10].

(* ===================================================================== *)
(** ** Values returned by [json.load] *)
(* ===================================================================== *)

Module Json.

#[warnings="-register-all"]
Inductive json :=
| JNull
| JBool (b : bool)
| JInt (z : Z)
| JFloat (f : float)
| JStr (s : pystr)
| JList (l : list json)
| JDict (m : gmap pystr json).

(** [bool(v)]: [None], [False], zero, and the empty string, list and dict
    are false. *)
Definition truthy (v : json) : bool :=
  match v with
  | JNull => false
  | JBool b => b
  | JInt z => negb (z =? 0)%Z
  | JFloat f => negb (PrimFloat.eqb f 0%float)
  | JStr s => nonempty s
  | JList l => match l with [] => false | _ :: _ => true end
  | JDict m => negb (bool_decide (m = ∅))
  end.

(** [v == s] for a string [s]: only an equal string is equal to it. *)
Definition eq_str (v : json) (s : pystr) : bool :=
  match v with
  | JStr t => PyStr.eqb t s
  | _ => false
  end.

End Json.

Import Json.

(* ===================================================================== *)
(** ** Exceptions and the interpreter's own texts *)
(* ===================================================================== *)

(** The handlers of the source tell [json.JSONDecodeError] from every
    other [Exception]; each carries its [str(e)]. *)
Inductive exn :=
| JSONDecodeError (msg : pystr)
| Exception (msg : pystr).

Definition str_of_exn (e : exn) : pystr :=
  match e with
  | JSONDecodeError msg => msg
  | Exception msg => msg
  end.

Inductive outcome (A : Type) :=
| Ret (a : A)
| Raise (e : exn).

Arguments Ret {A} a.
Arguments Raise {A} e.

(** Operations of the source that the interpreter refuses on some values. *)
Inductive fault :=
| NotAContainer (v : json)       (* [k in v], TypeError *)
| BadSubscript (v : json)        (* [v[k]], TypeError *)
| MissingKey (k : pystr)         (* [v[k]] on a dict without [k], KeyError *)
| NoGetAttribute (v : json)      (* [v.get], AttributeError *)
| UnpackMismatch (n : nat)       (* [key, value = ...] on [n] pieces, ValueError *)
| CannotEncode (line : pystr).   (* [print(line)], UnicodeEncodeError *)

(** What the interpreter chooses: the text of its own exceptions, the
    text of a non-string value inside an f-string, and the [.1f]
    rendering of a float, which is made of digits, a sign and a point
    (or [inf], [nan]) and so can always be encoded. *)
Record runtime := {
  fault_text : fault -> pystr;
  repr : json -> pystr;
  format_1f : float -> pystr;
  format_1f_encodable : forall f, encodable (format_1f f) = true
}.

(** [f"{v}"] *)
Definition format_value (rt : runtime) (v : json) : pystr :=
  match v with
  | JStr s => s
  | _ => repr rt v
  end.

Definition fail {A} (rt : runtime) (f : fault) : outcome A :=
  Raise (Exception (fault_text rt f)).

(** [k in v] *)
Definition py_in (rt : runtime) (k : pystr) (v : json) : outcome bool :=
  match v with
  | JDict m => Ret (bool_decide (is_Some (m !! k)))
  | JList l => Ret (existsb (fun x => eq_str x k) l)
  | JStr s => Ret (contains k s)
  | _ => fail rt (NotAContainer v)
  end.

(** [v[k]] for a string [k] *)
Definition subscript (rt : runtime) (v : json) (k : pystr) : outcome json :=
  match v with
  | JDict m =>
      match m !! k with
      | Some x => Ret x
      | None => fail rt (MissingKey k)
      end
  | _ => fail rt (BadSubscript v)
  end.

(** [v.get(k, d)] *)
Definition dict_get (rt : runtime) (v : json) (k : pystr) (d : json) : outcome json :=
  match v with
  | JDict m => Ret (default d (m !! k))
  | _ => fail rt (NoGetAttribute v)
  end.

(* ===================================================================== *)
(** ** The project directory *)
(* ===================================================================== *)

(** Paths are relative to the project root. [fs_exists p] is what
    [Path.exists] does on [p]: it answers, or it raises the [OSError]
    of the underlying [stat] when that is not one of the errors it
    takes for absence (a directory that may not be searched, a name
    that is too long). [fs_lines p] is what [open(p, 'r')] followed by
    iteration yields: the lines read, then the exception that ended the
    reading, if any (a failing [open] reads no line). [fs_json p] is the
    result of [open] and [json.load]. *)
Record filesystem := {
  fs_exists : pystr -> outcome bool;
  fs_lines : pystr -> list pystr * option exn;
  fs_json : pystr -> outcome json
}.

(* ===================================================================== *)
(** ** State and control *)
(* ===================================================================== *)

(** The three lists of a [ConfigValidator] and the lines printed so far. *)
Record state := {
  errors : list pystr;
  warnings : list pystr;
  info : list pystr;
  stdout : list pystr
}.

(** [ConfigValidator(project_root)] *)
Definition init : state :=
  {| errors := []; warnings := []; info := []; stdout := [] |}.

Definition M (A : Type) : Type := state -> outcome A * state.

Definition ret {A} (a : A) : M A := fun s => (Ret a, s).

Definition bind {A B} (m : M A) (k : A -> M B) : M B :=
  fun s =>
    match m s with
    | (Ret a, s') => k a s'
    | (Raise e, s') => (Raise e, s')
    end.

#[export] Instance M_ret : MRet M := @ret.
#[export] Instance M_bind : MBind M := fun A B k m => bind m k.

Definition lift {A} (o : outcome A) : M A := fun s => (o, s).

(** [try: body except ... as e: handler e] *)
Definition try_except {A} (body : M A) (handler : exn -> M A) : M A :=
  fun s =>
    match body s with
    | (Raise e, s') => handler e s'
    | r => r
    end.

Definition get : M state := fun s => (Ret s, s).

Definition append_error (msg : pystr) : M unit :=
  fun s => (Ret tt, {| errors := errors s ++ [msg]; warnings := warnings s;
                       info := info s; stdout := stdout s |}).

Definition append_warning (msg : pystr) : M unit :=
  fun s => (Ret tt, {| errors := errors s; warnings := warnings s ++ [msg];
                       info := info s; stdout := stdout s |}).

Definition append_info (msg : pystr) : M unit :=
  fun s => (Ret tt, {| errors := errors s; warnings := warnings s;
                       info := info s ++ [msg]; stdout := stdout s |}).

(** [print(line)]: standard output encodes with UTF-8; a line it
    cannot encode raises before anything of it is written. *)
Definition print (rt : runtime) (line : pystr) : M unit :=
  fun s =>
    if encodable line then
      (Ret tt, {| errors := errors s; warnings := warnings s;
                  info := info s; stdout := stdout s ++ [line] |})
    else (Raise (Exception (fault_text rt (CannotEncode line))), s).

(** [for x in l: body x] *)
Fixpoint for_each {A} (l : list A) (body : A -> M unit) : M unit :=
  match l with
  | [] => ret tt
  | x :: l' => body x;; for_each l' body
  end.

Definition when (b : bool) (m : M unit) : M unit := if b then m else ret tt.

(* ===================================================================== *)
(** ** ConfigValidator *)
(* ===================================================================== *)

Definition env_file : pystr := py ".env".
Definition env_template : pystr := py ".env.template".

Definition required_vars : list pystr :=
  [py "API_BASE_URL_PROD"; py "MAPBOX_ACCESS_TOKEN_PROD"; py "FIREBASE_PROJECT_ID_PROD"].

Definition placeholders : list pystr :=
  [py ""; py "your_placeholder_value"; py "placeholder"].

Definition google_services : pystr := py "app/google-services.json".
Definition google_services_template : pystr := py "app/google-services.json.template".
Definition default_project_id : pystr := py "aalay-student-housing".

Definition required_files : list pystr :=
  [py "build.gradle"; py "app/build.gradle"; py "settings.gradle";
   py "gradle.properties"; py "env-loader.gradle"].

Definition security_files : list pystr :=
  [py "app/src/main/res/xml/network_security_config.xml";
   py "app/src/main/res/xml/backup_rules.xml";
   py "app/src/main/res/xml/data_extraction_rules.xml";
   py "app/proguard-rules.pro"].

Definition critical_files : list pystr :=
  [py "utils/ConfigManager.kt"; py "utils/SecurityConfig.kt";
   py "di/NetworkModule.kt"; py "AalayApplication.kt"].

Definition doc_files : list pystr :=
  [py "README.md"; py "DEPLOYMENT.md"; py ".gitignore"].

Definition ci_files : list pystr :=
  [py ".github/workflows/android-ci.yml"].

Definition msg_missing_var (var : pystr) : pystr :=
  py "Required variable " ++ var ++ py " not found in .env".

Definition msg_placeholder_var (var : pystr) : pystr :=
  py "Variable " ++ var ++ py " has placeholder value".

Definition msg_found (file_path : pystr) : pystr :=
  py "✓ " ++ file_path ++ py " found".

Section Validator.

Context (rt : runtime) (fs : filesystem).

(** Body of the loop over the lines of the env file. *)
Definition env_line (env_vars : gmap pystr pystr) (line : pystr)
  : outcome (gmap pystr pystr) :=
  let line := strip line in
  if nonempty line && negb (startswith line (py "#")) && contains (py "=") line
  then
    match split1 (py "=") line with
    | [key; value] => Ret (<[strip key := strip value]> env_vars)
    | pieces => fail rt (UnpackMismatch (length pieces))
    end
  else Ret env_vars.

Fixpoint env_lines (env_vars : gmap pystr pystr) (lines : list pystr)
  : outcome (gmap pystr pystr) :=
  match lines with
  | [] => Ret env_vars
  | line :: rest =>
      match env_line env_vars line with
      | Ret env_vars' => env_lines env_vars' rest
      | Raise e => Raise e
      end
  end.

(** [with open(env_file, 'r') as f: for line in f: ...] *)
Definition read_env_vars : outcome (gmap pystr pystr) :=
  let '(lines, failure) := fs_lines fs env_file in
  match env_lines ∅ lines with
  | Ret env_vars =>
      match failure with
      | Some e => Raise e
      | None => Ret env_vars
      end
  | Raise e => Raise e
  end.

Definition check_required_var (env_vars : gmap pystr pystr) (var : pystr) : M unit :=
  match env_vars !! var with
  | None => append_warning (msg_missing_var var)
  | Some value =>
      when (bool_decide (value ∈ placeholders))
           (append_warning (msg_placeholder_var var))
  end.

Definition validate_env_file : M unit :=
  env_file_exists ← lift (fs_exists fs env_file);
  if negb env_file_exists then
    env_template_exists ← lift (fs_exists fs env_template);
    if env_template_exists : bool then
      append_warning
        (py "No .env file found. Copy .env.template to .env and fill in your values.")
    else
      append_error (py "Neither .env nor .env.template file found!")
  else
    append_info (py "✓ .env file found");;
    r ← try_except
          (env_vars ← lift read_env_vars; ret (Some env_vars))
          (fun e =>
             append_error (py "Error reading .env file: " ++ str_of_exn e);;
             ret None);
    match r with
    | None => ret tt
    | Some env_vars =>
        for_each required_vars (check_required_var env_vars);;
        append_info
          (py "✓ Found " ++ str_of_nat (size env_vars) ++ py " environment variables")
    end.

(** The statements of the [try] block after [json.load]. *)
Definition check_structure (config : json) : M unit :=
  has_info ← lift (py_in rt (py "project_info") config);
  both ← (if has_info : bool then lift (py_in rt (py "client") config) else ret false);
  if both : bool then
    project_info ← lift (subscript rt config (py "project_info"));
    project_id ← lift (dict_get rt project_info (py "project_id") (JStr (py "")));
    if truthy project_id && negb (eq_str project_id default_project_id) then
      append_info (py "✓ Firebase project ID: " ++ format_value rt project_id)
    else
      append_warning (py "Firebase project_id appears to be a placeholder")
  else
    append_warning (py "google-services.json has invalid structure").

Definition validate_firebase_config : M unit :=
  google_services_exists ← lift (fs_exists fs google_services);
  if negb google_services_exists then
    template_exists ← lift (fs_exists fs google_services_template);
    if template_exists : bool then
      append_warning
        (py "No google-services.json found. Copy template and configure with your Firebase project.")
    else
      append_warning (py "No Firebase configuration found!")
  else
    append_info (py "✓ google-services.json found");;
    try_except
      (config ← lift (fs_json fs google_services); check_structure config)
      (fun e =>
         match e with
         | JSONDecodeError _ =>
             append_error (py "google-services.json is not valid JSON")
         | Exception _ =>
             append_warning
               (py "Could not validate google-services.json: " ++ str_of_exn e)
         end).

Definition validate_build_files : M unit :=
  for_each required_files (fun file_path =>
    found ← lift (fs_exists fs file_path);
    if found : bool then append_info (msg_found file_path)
    else append_error (py "Required build file missing: " ++ file_path)).

Definition validate_security_files : M unit :=
  for_each security_files (fun file_path =>
    found ← lift (fs_exists fs file_path);
    if found : bool then append_info (msg_found file_path)
    else append_warning (py "Security file missing: " ++ file_path)).

Definition validate_source_files : M unit :=
  for_each critical_files (fun file_path =>
    found ← lift (fs_exists fs file_path);
    if found : bool then append_info (msg_found file_path)
    else append_error (py "Critical source file missing: " ++ file_path)).

Definition validate_documentation : M unit :=
  for_each doc_files (fun file_path =>
    found ← lift (fs_exists fs file_path);
    if found : bool then append_info (msg_found file_path)
    else append_warning (py "Documentation file missing: " ++ file_path)).

Definition validate_ci_cd : M unit :=
  for_each ci_files (fun file_path =>
    found ← lift (fs_exists fs file_path);
    if found : bool then append_info (msg_found file_path)
    else append_warning (py "CI/CD file missing: " ++ file_path)).

(** The seven checks, in the order [validate_all] calls them. *)
Definition run_checks : M unit :=
  validate_env_file;;
  validate_firebase_config;;
  validate_build_files;;
  validate_security_files;;
  validate_source_files;;
  validate_documentation;;
  validate_ci_cd.

(** [len(l)] as the float that true division makes of it. *)
Definition float_of_len (n : nat) : float :=
  PrimFloat.of_uint63 (Uint63.of_Z (Z.of_nat n)).

Definition total_checks (self : state) : nat :=
  (length (info self) + length (warnings self) + length (errors self))%nat.

Definition success_rate (self : state) : float :=
  if (0 <? total_checks self)%nat then
    (float_of_len (length (info self)) / float_of_len (total_checks self) * 100)%float
  else 0%float.

Definition print_section (header : pystr) (msgs : list pystr) : M unit :=
  when (match msgs with [] => false | _ :: _ => true end)
       (print rt header;;
        for_each msgs (fun msg => print rt (py "   " ++ msg));;
        print rt (py "")).

Definition validate_all : M bool :=
  print rt (py "🔍 Validating Aalay project configuration..." ++ nl);;
  run_checks;;
  self ← get;
  print_section (py "✅ Configuration Status:") (info self);;
  print_section (py "⚠️  Warnings:") (warnings self);;
  print_section (py "❌ Errors:") (errors self);;
  print rt (py "📊 Summary: " ++ str_of_nat (length (info self)) ++ py " passed, "
         ++ str_of_nat (length (warnings self)) ++ py " warnings, "
         ++ str_of_nat (length (errors self)) ++ py " errors");;
  print rt (py "🎯 Success rate: " ++ format_1f rt (success_rate self) ++ py "%");;
  match errors self, warnings self with
  | _ :: _, _ =>
      print rt (nl ++ py "❗ Critical errors found. Please fix them before building.");;
      ret false
  | [], _ :: _ =>
      print rt (nl ++ py "⚡ Warnings found. Consider addressing them for optimal setup.");;
      ret true
  | [], [] =>
      print rt (nl ++ py "🎉 All checks passed! Your configuration looks good.");;
      ret true
  end.

(** [main]: the exit status of the process and the final state. An
    exception that leaves [validate_all] ends the process with status 1. *)
Definition main : Z * state :=
  match validate_all init with
  | (Ret success, s) => ((if success then 0 else 1)%Z, s)
  | (Raise _, s) => (1%Z, s)
  end.

End Validator.

(* ===================================================================== *)
(** ** Vocabulary of the properties *)
(* ===================================================================== *)

(** The state [s] followed by everything recorded in [d]. *)
Definition record_after (s d : state) : state :=
  {| errors := errors s ++ errors d;
     warnings := warnings s ++ warnings d;
     info := info s ++ info d;
     stdout := stdout s ++ stdout d |}.

(** What a computation records when it starts from a fresh validator. *)
Definition recorded {A} (m : M A) : state := snd (m init).

(** A computation is local when its result and what it records do not
    depend on what was recorded before it. *)
Definition local {A} (m : M A) : Prop :=
  ∀ s, m s = (fst (m init), record_after s (recorded m)).

(** A computation is safe when no exception leaves it. *)
Definition safe {A} (m : M A) : Prop :=
  ∀ s, ∃ a s', m s = (Ret a, s').

(** The state [s] after the lines [out] were printed. *)
Definition printed (s : state) (out : list pystr) : state :=
  {| errors := errors s; warnings := warnings s; info := info s;
     stdout := stdout s ++ out |}.

(** A computation is quiet when it only prints. *)
Definition quiet (m : M unit) : Prop :=
  ∀ s, ∃ out, m s = (Ret tt, printed s out).

(** The entry a line of the env file stands for, in the words of the
    description: the stripped line is not empty, does not start with [#],
    holds an [=]; it is cut at its first [=] (code point 61, which the
    text before the cut does not hold), and both sides are stripped. *)
Definition line_entry (line key value : pystr) : Prop :=
  let text := strip line in
  text ≠ py ""
  ∧ (∀ rest, text ≠ py "#" ++ rest)
  ∧ ∃ before after,
      text = before ++ py "=" ++ after
      ∧ (61 ∉ before)
      ∧ key = strip before
      ∧ value = strip after.

(** The warnings the loop over the required variables adds for [var]. *)
Definition var_warnings (env_vars : gmap pystr pystr) (var : pystr) : list pystr :=
  warnings (recorded (check_required_var env_vars var)).

(** [config] is an object with a top-level key [k]. *)
Definition has_key (k : pystr) (config : json) : Prop :=
  match config with
  | JDict m => is_Some (m !! k)
  | _ => False
  end.

(** Every file the checks look for, the two templates apart. *)
Definition listed_files : list pystr :=
  env_file :: google_services ::
  required_files ++ security_files ++ critical_files ++ doc_files ++ ci_files.

(** The project id the credential check reads:
    [config['project_info'].get('project_id', '')]. *)
Definition project_id_of (project_info : gmap pystr json) : json :=
  default (JStr (py "")) (project_info !! py "project_id").

Definition checks (rt : runtime) (fs : filesystem) : list (M unit) :=
  [validate_env_file rt fs; validate_firebase_config rt fs;
   validate_build_files fs; validate_security_files fs;
   validate_source_files fs; validate_documentation fs; validate_ci_cd fs].

(** The files of [files] that [Path.exists] answers to be absent, and
    those it answers to be there, in the order of [files]. *)
Definition missing_files (fs : filesystem) (files : list pystr) : list pystr :=
  List.filter (λ file_path,
                 match fs_exists fs file_path with
                 | Ret false => true
                 | _ => false
                 end) files.

Definition found_files (fs : filesystem) (files : list pystr) : list pystr :=
  List.filter (λ file_path,
                 match fs_exists fs file_path with
                 | Ret true => true
                 | _ => false
                 end) files.

(** [Path.exists] answers for every path: no call of it raises. *)
Definition exists_answers (fs : filesystem) : Prop :=
  ∀ file_path, ∃ found : bool, fs_exists fs file_path = Ret found.

(** The files a loop over [files] gets an answer for: those before the
    first one on which [Path.exists] raises; and the exception of that
    one, if there is one. *)
Fixpoint answered (fs : filesystem) (files : list pystr) : list pystr :=
  match files with
  | [] => []
  | file_path :: rest =>
      match fs_exists fs file_path with
      | Ret _ => file_path :: answered fs rest
      | Raise _ => []
      end
  end.

Fixpoint first_failure (fs : filesystem) (files : list pystr) : option exn :=
  match files with
  | [] => None
  | file_path :: rest =>
      match fs_exists fs file_path with
      | Ret _ => first_failure fs rest
      | Raise e => Some e
      end
  end.

(** A computation keeps the lists when it leaves the three message
    lists as they are, whether it returns or raises. *)
Definition keeps_lists {A} (m : M A) : Prop :=
  ∀ s, errors (snd (m s)) = errors s
       ∧ warnings (snd (m s)) = warnings s
       ∧ info (snd (m s)) = info s.

(** Every message a state holds, in the order of the report. *)
Definition messages (s : state) : list pystr :=
  info s ++ warnings s ++ errors s.

(** Every message of [s] can be printed. *)
Definition printable (s : state) : Prop :=
  Forall (λ msg, encodable msg = true) (messages s).

(** The lines one section of the report takes: nothing for an empty
    list, otherwise the header, the indented messages and an empty line. *)
Definition section_lines (header : pystr) (msgs : list pystr) : list pystr :=
  match msgs with
  | [] => []
  | _ :: _ => header :: map (λ msg, py "   " ++ msg) msgs ++ [py ""]
  end.


(* ===================================================================== *)
(** ** Sample project directories *)
(* ===================================================================== *)

Module Samples.

Definition rt0 : runtime :=
  {| fault_text := fun _ => py "unsupported operand";
     repr := fun _ => py "<value>";
     format_1f := fun _ => py "<rate>";
     format_1f_encodable := fun _ => eq_refl |}.

(** A directory holding exactly [files], whose env file reads as [env]
    and whose credential file loads as [cred]. *)
Definition fs_of (files : list pystr) (env : list pystr * option exn)
    (cred : outcome json) : filesystem :=
  {| fs_exists := fun p => Ret (bool_decide (p ∈ files));
     fs_lines := fun _ => env;
     fs_json := fun _ => cred |}.


Definition good_env : list pystr :=
  [py "# production settings" ++ nl;
   nl;
   py "API_BASE_URL_PROD=https://api.example.org/v1?x=1" ++ nl;
   py "  MAPBOX_ACCESS_TOKEN_PROD = pk.abc  " ++ nl;
   py "FIREBASE_PROJECT_ID_PROD=aalay-student-housing" ++ nl].

Definition credential (project_info : json) : json :=
  JDict (<[py "project_info" := project_info]> (<[py "client" := JList []]> ∅)).

Definition project_info_of (project_id : json) : json :=
  JDict (<[py "project_id" := project_id]> ∅).

(** A project id made of one lone surrogate, as the JSON text
    ["\ud800"] loads. *)
Definition lone_surrogate : pystr := [55296].

Definition fs_empty : filesystem :=
  fs_of [] ([], Some (Exception (py "No such file or directory"))) (Raise (Exception (py "No such file or directory"))).

Definition fs_full (project_id : pystr) : filesystem :=
  fs_of listed_files (good_env, None)
        (Ret (credential (project_info_of (JStr project_id)))).

(** The map the loop builds from [good_env]. *)
Definition good_env_vars : gmap pystr pystr :=
  <[py "FIREBASE_PROJECT_ID_PROD" := py "aalay-student-housing"]>
    (<[py "MAPBOX_ACCESS_TOKEN_PROD" := py "pk.abc"]>
       (<[py "API_BASE_URL_PROD" := py "https://api.example.org/v1?x=1"]> ∅)).

End Samples.

Import Samples.

(** Literals and rendered numbers stay folded while proofs simplify. *)
Arguments py s%_string : simpl never.
Arguments str_of_nat n : simpl never.
Arguments msg_missing_var var : simpl never.
Arguments msg_placeholder_var var : simpl never.
Arguments msg_found file_path : simpl never.

(* ===================================================================== *)
(** ** Strings: membership and the first separator *)
(* ===================================================================== *)

Lemma startswith_single c s :
  startswith s [c] = true ↔ ∃ rest, s = c :: rest.
Proof.
  destruct s as [|x s]; cbn [startswith].
  - split; [done | by intros [? ?]].
  - rewrite andb_true_r, N.eqb_eq. split.
    + intros ->. by eexists.
    + by intros [? [= -> _]].
Qed.

Lemma contains_single c s : contains [c] s = true ↔ c ∈ s.
Proof.
  induction s as [|x s IH].
  - cbn. split; [done | by intros ?%elem_of_nil].
  - cbn [contains]. rewrite orb_true_iff, IH, elem_of_cons.
    cbn [startswith]. rewrite andb_true_r, N.eqb_eq. intuition congruence.
Qed.

Lemma split1_single c s :
  c ∈ s →
  ∃ before after, split1 [c] s = [before; after] ∧ s = before ++ c :: after ∧ c ∉ before.
Proof.
  induction s as [|x s IH]; [by intros ?%elem_of_nil|].
  intros Hin. cbn [split1 startswith]. rewrite andb_true_r.
  destruct (N.eqb_spec x c) as [->|Hne].
  - exists [], s. cbn. split; [done|]. split; [done | apply not_elem_of_nil].
  - apply elem_of_cons in Hin as [->|Hin]; [done|].
    destruct (IH Hin) as (before & after & -> & -> & Hnot).
    exists (x :: before), after. split; [done|]. split; [done|].
    rewrite elem_of_cons. intros [E|E]; [congruence | done].
Qed.

(** The cut at the first occurrence is unique. *)
Lemma first_cut_unique (c : N) (b1 a1 b2 a2 : pystr) :
  b1 ++ c :: a1 = b2 ++ c :: a2 → c ∉ b1 → c ∉ b2 → b1 = b2 ∧ a1 = a2.
Proof.
  revert b2. induction b1 as [|x b1 IH]; intros [|y b2]; cbn; intros E H1 H2.
  - by injection E as ->.
  - injection E as -> _. exfalso. apply H2. by left.
  - injection E as -> _. exfalso. apply H1. by left.
  - injection E as -> E.
    destruct (IH b2 E) as [-> ->]; [| |done].
    + intros ?. apply H1. by right.
    + intros ?. apply H2. by right.
Qed.

(* ===================================================================== *)
(** ** The env file, line by line *)
(* ===================================================================== *)

(** A line stands for at most one entry. *)
Lemma line_entry_functional line k1 v1 k2 v2 :
  line_entry line k1 v1 → line_entry line k2 v2 → k1 = k2 ∧ v1 = v2.
Proof.
  intros (_ & _ & b1 & a1 & E1 & N1 & -> & ->) (_ & _ & b2 & a2 & E2 & N2 & -> & ->).
  rewrite E1 in E2. change (py "=") with [61] in E2. cbn [app] in E2.
  destruct (first_cut_unique _ _ _ _ _ E2 N1 N2) as [-> ->]. done.
Qed.

(** The loop body never raises: it inserts the entry the line stands
    for, or leaves the map as it is when the line stands for none. *)
Lemma env_line_run rt env_vars line :
  (∃ key value,
      line_entry line key value
      ∧ env_line rt env_vars line = Ret (<[key := value]> env_vars))
  ∨ ((∀ key value, ¬ line_entry line key value)
     ∧ env_line rt env_vars line = Ret env_vars).
Proof.
  unfold env_line, line_entry. cbn zeta.
  change (py "=") with [61]. change (py "#") with [35]. change (py "") with (@nil N).
  destruct (nonempty (strip line)) eqn:Hne; cbn [andb].
  2:{ right. split; [|done]. intros k v (Hnil & _). by destruct (strip line). }
  destruct (startswith (strip line) [35]) eqn:Hhash; cbn [andb negb].
  1:{ right. split; [|done]. intros k v (_ & Hno & _).
      apply startswith_single in Hhash as [rest E]. by apply (Hno rest). }
  destruct (contains [61] (strip line)) eqn:Heq.
  2:{ right. split; [|done]. intros k v (_ & _ & b & a & E & _).
      assert (contains [61] (strip line) = true) as E'; [|congruence].
      apply contains_single. rewrite E. set_solver. }
  left. apply contains_single in Heq.
  destruct (split1_single _ _ Heq) as (before & after & -> & E & Hnot).
  exists (strip before), (strip after). split; [|done].
  split; [by destruct (strip line)|]. split.
  - intros rest Hrest. assert (startswith (strip line) [35] = true) as E'; [|congruence].
    apply startswith_single. by exists rest.
  - by exists before, after.
Qed.

(** The loop over the lines ends normally, and the map it builds holds,
    for each key, the value of the last line that stands for an entry
    with that key; keys no line mentions keep the value they had. *)
Lemma env_lines_run rt lines : ∀ env_vars0 : gmap pystr pystr,
  ∃ env_vars : gmap pystr pystr,
    env_lines rt env_vars0 lines = Ret env_vars
    ∧ ∀ key value,
        env_vars !! key = Some value ↔
          (∃ i line,
              lines !! i = Some line ∧ line_entry line key value
              ∧ ∀ j later value',
                  (i < j)%nat → lines !! j = Some later → ¬ line_entry later key value')
          ∨ (env_vars0 !! key = Some value
             ∧ ∀ j later value', lines !! j = Some later → ¬ line_entry later key value').
Proof.
  induction lines as [|line rest IH]; intros m0.
  - exists m0. split; [done|]. intros k v. split.
    + intros H. right. split; [done|]. intros j later v' Hj. by destruct j.
    + intros [(i & l & Hi & _)|[H _]]; [by destruct i | done].
  - cbn [env_lines].
    destruct (env_line_run rt m0 line) as [(k0 & v0 & Hent & ->)|[Hnone ->]].
    + destruct (IH (<[k0:=v0]> m0)) as (m & Hrun & Hm).
      exists m. split; [done|]. intros k v. rewrite Hm. split.
      * intros [(i & l & Hi & Hl & Hlast)|[Hk Hfree]].
        -- left. exists (S i), l. split; [done|]. split; [done|].
           intros [|j] later v' Hlt Hj; [lia|]. apply (Hlast j later v'); [lia | done].
        -- destruct (decide (k0 = k)) as [->|Hne].
           ++ rewrite lookup_insert_eq in Hk. injection Hk as ->.
              left. exists O, line. split; [done|]. split; [done|].
              intros [|j] later v' Hlt Hj; [lia|]. by apply (Hfree j).
           ++ rewrite lookup_insert_ne in Hk by done.
              right. split; [done|]. intros [|j] later v' Hj.
              ** injection Hj as <-. intros Hent'.
                 by destruct (line_entry_functional _ _ _ _ _ Hent Hent').
              ** by apply (Hfree j).
      * intros [(i & l & Hi & Hl & Hlast)|[Hk Hfree]].
        -- destruct i as [|i].
           ++ injection Hi as <-.
              destruct (line_entry_functional _ _ _ _ _ Hent Hl) as [-> ->].
              right. rewrite lookup_insert_eq. split; [done|].
              intros j later v' Hj. apply (Hlast (S j) later v'); [lia | done].
           ++ left. exists i, l. split; [done|]. split; [done|].
              intros j later v' Hlt Hj. apply (Hlast (S j) later v'); [lia | done].
        -- right. assert (k0 ≠ k) as Hne.
           { intros ->. by apply (Hfree O line v0). }
           rewrite lookup_insert_ne by done. split; [done|].
           intros j later v' Hj. by apply (Hfree (S j) later v').
    + destruct (IH m0) as (m & Hrun & Hm).
      exists m. split; [done|]. intros k v. rewrite Hm. split.
      * intros [(i & l & Hi & Hl & Hlast)|[Hk Hfree]].
        -- left. exists (S i), l. split; [done|]. split; [done|].
           intros [|j] later v' Hlt Hj; [lia|]. apply (Hlast j later v'); [lia | done].
        -- right. split; [done|]. intros [|j] later v' Hj.
           ++ injection Hj as <-. apply Hnone.
           ++ by apply (Hfree j).
      * intros [(i & l & Hi & Hl & Hlast)|[Hk Hfree]].
        -- destruct i as [|i].
           ++ injection Hi as <-. by destruct (Hnone k v).
           ++ left. exists i, l. split; [done|]. split; [done|].
              intros j later v' Hlt Hj. apply (Hlast (S j) later v'); [lia | done].
        -- right. split; [done|].
           intros j later v' Hj. by apply (Hfree (S j) later v').
Qed.

Lemma env_lines_returns rt lines env_vars0 :
  ∃ env_vars, env_lines rt env_vars0 lines = Ret env_vars.
Proof. destruct (env_lines_run rt lines env_vars0) as (m & E & _). by exists m. Qed.

(* ===================================================================== *)
(** ** Control: sequencing, handlers, loops *)
(* ===================================================================== *)

Lemma bind_run {A B} (m : M A) (k : A → M B) s :
  (m ≫= k) s =
  match m s with
  | (Ret a, s') => k a s'
  | (Raise e, s') => (Raise e, s')
  end.
Proof. reflexivity. Qed.

Lemma bind_ret_run {A B} (m : M A) (k : A → M B) s a s' :
  m s = (Ret a, s') → (m ≫= k) s = k a s'.
Proof. intros H. rewrite bind_run, H. reflexivity. Qed.

(** Closed decidable facts, by evaluation of their decision procedure. *)
Ltac decide_by_computation :=
  match goal with
  | |- ¬ ?P => refine (proj1 (bool_decide_eq_false P) _); vm_compute; reflexivity
  | |- ?P => refine (proj1 (bool_decide_eq_true P) _); vm_compute; reflexivity
  end.

Ltac run_binds :=
  repeat first [progress rewrite bind_run | progress cbv beta iota].

(** Step over a call of [Path.exists] whose answer [H] gives. *)
Ltac answer_exists H :=
  erewrite bind_ret_run by (unfold lift; rewrite H; reflexivity);
  cbv beta; cbn [negb].

Lemma record_after_init_l d : record_after init d = d.
Proof. destruct d; reflexivity. Qed.

Lemma record_after_init_r s : record_after s init = s.
Proof. destruct s; unfold record_after; simpl. rewrite !app_nil_r. reflexivity. Qed.

Lemma record_after_assoc s d1 d2 :
  record_after (record_after s d1) d2 = record_after s (record_after d1 d2).
Proof. unfold record_after; simpl. rewrite !app_assoc. reflexivity. Qed.

Ltac local_prim :=
  intros s; unfold recorded, record_after; cbn; rewrite ?app_nil_r;
  try (destruct s; reflexivity); reflexivity.

Lemma local_ret {A} (a : A) : local (mret a).
Proof. local_prim. Qed.

Lemma local_lift {A} (o : outcome A) : local (lift o).
Proof. local_prim. Qed.

Lemma local_append_error msg : local (append_error msg).
Proof. local_prim. Qed.

Lemma local_append_warning msg : local (append_warning msg).
Proof. local_prim. Qed.

Lemma local_append_info msg : local (append_info msg).
Proof. local_prim. Qed.

Lemma local_bind {A B} (m : M A) (k : A → M B) :
  local m → (∀ a, local (k a)) → local (m ≫= k).
Proof.
  intros Hm Hk s. unfold recorded. rewrite !bind_run, (Hm s), (Hm init).
  rewrite record_after_init_l.
  destruct (fst (m init)) as [a|e]; cbn.
  - rewrite (Hk a (record_after s _)), (Hk a (recorded m)). cbn.
    by rewrite record_after_assoc.
  - reflexivity.
Qed.

Lemma local_try_except {A} (body : M A) (handler : exn → M A) :
  local body → (∀ e, local (handler e)) → local (try_except body handler).
Proof.
  intros Hb Hh s. unfold recorded, try_except. rewrite (Hb s), (Hb init).
  rewrite record_after_init_l.
  destruct (fst (body init)) as [a|e]; cbn.
  - reflexivity.
  - rewrite (Hh e (record_after s _)), (Hh e (recorded body)). cbn.
    by rewrite record_after_assoc.
Qed.

Lemma local_for_each {A} (l : list A) (body : A → M unit) :
  (∀ x, local (body x)) → local (for_each l body).
Proof.
  intros Hb. induction l as [|x l IH]; cbn [for_each].
  - apply local_ret.
  - apply local_bind; [apply Hb | intros _; exact IH].
Qed.

Lemma local_when b (m : M unit) : local m → local (when b m).
Proof. destruct b; cbn; [done | intros _; apply local_ret]. Qed.

Lemma safe_ret {A} (a : A) : safe (mret a).
Proof. intros s. by exists a, s. Qed.

Lemma safe_append_error msg : safe (append_error msg).
Proof. intros s. by eexists _, _. Qed.

Lemma safe_append_warning msg : safe (append_warning msg).
Proof. intros s. by eexists _, _. Qed.

Lemma safe_append_info msg : safe (append_info msg).
Proof. intros s. by eexists _, _. Qed.

Lemma safe_bind {A B} (m : M A) (k : A → M B) :
  safe m → (∀ a, safe (k a)) → safe (m ≫= k).
Proof.
  intros Hm Hk s. destruct (Hm s) as (a & s' & E).
  rewrite (bind_ret_run _ _ _ _ _ E). apply Hk.
Qed.

(** Whatever the body raises, the handler decides the result. *)
Lemma safe_try_except {A} (body : M A) (handler : exn → M A) :
  (∀ e, safe (handler e)) → safe (try_except body handler).
Proof.
  intros Hh s. unfold try_except.
  destruct (body s) as [[a|e] s'].
  - by exists a, s'.
  - apply Hh.
Qed.

Lemma safe_for_each {A} (l : list A) (body : A → M unit) :
  (∀ x, safe (body x)) → safe (for_each l body).
Proof.
  intros Hb. induction l as [|x l IH]; cbn [for_each].
  - apply safe_ret.
  - apply safe_bind; [apply Hb | intros _; exact IH].
Qed.

Lemma safe_when b (m : M unit) : safe m → safe (when b m).
Proof. destruct b; cbn; [done | intros _; apply safe_ret]. Qed.


(* ===================================================================== *)
(** ** What can be printed *)
(* ===================================================================== *)

Lemma encodable_app a b : encodable (a ++ b) = encodable a && encodable b.
Proof. unfold encodable. apply forallb_app. Qed.

Lemma encodable_decimal d : encodable (py (NilEmpty.string_of_uint d)) = true.
Proof.
  induction d as [|d IH|d IH|d IH|d IH|d IH|d IH|d IH|d IH|d IH|d IH];
    cbn [NilEmpty.string_of_uint]; [reflexivity|..];
    match goal with
    | |- encodable (py (String ?c ?str)) = true =>
        let n := eval vm_compute in (N_of_ascii c) in
        change (py (String c str)) with (n :: py str)
    end; exact IH.
Qed.

Lemma encodable_str_of_nat n : encodable (str_of_nat n) = true.
Proof.
  unfold str_of_nat, NilZero.string_of_uint.
  destruct (Nat.to_uint n) eqn:E; try (rewrite <- E; apply encodable_decimal).
  reflexivity.
Qed.

(* ===================================================================== *)
(** ** The seven checks: what they record does not depend on the state *)
(* ===================================================================== *)

Create HintDb checks.

#[local] Hint Resolve local_ret local_lift local_append_error
  local_append_warning local_append_info local_when
  safe_ret safe_append_error safe_append_warning safe_append_info
  safe_when : checks.

Lemma safe_exists fs file_path :
  exists_answers fs → safe (lift (fs_exists fs file_path)).
Proof.
  intros Hans s. destruct (Hans file_path) as [found E].
  exists found, s. unfold lift. by rewrite E.
Qed.

Lemma local_print rt line : local (print rt line).
Proof.
  intros s. unfold print, recorded, record_after.
  destruct (encodable line); cbn; rewrite ?app_nil_r; by destruct s.
Qed.

Ltac presence_check :=
  first [ apply local_for_each; intros file_path;
          apply local_bind; [apply local_lift | intros [|]; auto with checks]
        | apply safe_for_each; intros file_path;
          apply safe_bind; [by apply safe_exists | intros [|]; auto with checks] ].

Lemma local_check_required_var env_vars var : local (check_required_var env_vars var).
Proof. unfold check_required_var. destruct (env_vars !! var); auto with checks. Qed.

Lemma safe_check_required_var env_vars var : safe (check_required_var env_vars var).
Proof. unfold check_required_var. destruct (env_vars !! var); auto with checks. Qed.

Lemma local_validate_env_file rt fs : local (validate_env_file rt fs).
Proof.
  unfold validate_env_file.
  apply local_bind; [apply local_lift | intros [|]]; cbn [negb].
  - apply local_bind; [auto with checks | intros _].
    apply local_bind.
    + apply local_try_except.
      * apply local_bind; [apply local_lift | intros; apply local_ret].
      * intros e. apply local_bind; [auto with checks | intros; apply local_ret].
    + intros [env_vars|]; [|apply local_ret].
      apply local_bind; [|intros; auto with checks].
      apply local_for_each. intros; apply local_check_required_var.
  - apply local_bind; [apply local_lift | intros [|]; auto with checks].
Qed.

Lemma safe_validate_env_file rt fs : exists_answers fs → safe (validate_env_file rt fs).
Proof.
  intros Hans. unfold validate_env_file.
  apply safe_bind; [by apply safe_exists | intros [|]]; cbn [negb].
  - apply safe_bind; [auto with checks | intros _].
    apply safe_bind.
    + apply safe_try_except.
      intros e. apply safe_bind; [auto with checks | intros; apply safe_ret].
    + intros [env_vars|]; [|apply safe_ret].
      apply safe_bind; [|intros; auto with checks].
      apply safe_for_each. intros; apply safe_check_required_var.
  - apply safe_bind; [by apply safe_exists | intros [|]; auto with checks].
Qed.

Lemma local_check_structure rt config : local (check_structure rt config).
Proof.
  unfold check_structure.
  apply local_bind; [apply local_lift | intros has_info].
  apply local_bind; [destruct has_info; auto with checks | intros both].
  destruct both; [|auto with checks].
  apply local_bind; [apply local_lift | intros project_info].
  apply local_bind; [apply local_lift | intros project_id].
  destruct (truthy project_id && negb (eq_str project_id default_project_id));
    auto with checks.
Qed.

Lemma local_validate_firebase_config rt fs : local (validate_firebase_config rt fs).
Proof.
  unfold validate_firebase_config.
  apply local_bind; [apply local_lift | intros [|]]; cbn [negb].
  - apply local_bind; [auto with checks | intros _].
    apply local_try_except.
    + apply local_bind; [apply local_lift | intros; apply local_check_structure].
    + intros [msg|msg]; auto with checks.
  - apply local_bind; [apply local_lift | intros [|]; auto with checks].
Qed.

Lemma safe_validate_firebase_config rt fs :
  exists_answers fs → safe (validate_firebase_config rt fs).
Proof.
  intros Hans. unfold validate_firebase_config.
  apply safe_bind; [by apply safe_exists | intros [|]]; cbn [negb].
  - apply safe_bind; [auto with checks | intros _].
    apply safe_try_except. intros [msg|msg]; auto with checks.
  - apply safe_bind; [by apply safe_exists | intros [|]; auto with checks].
Qed.

Lemma safe_validate_build_files fs : exists_answers fs → safe (validate_build_files fs).
Proof. intros Hans. unfold validate_build_files. presence_check. Qed.

Lemma local_validate_build_files fs : local (validate_build_files fs).
Proof. unfold validate_build_files. presence_check. Qed.

Lemma safe_validate_security_files fs :
  exists_answers fs → safe (validate_security_files fs).
Proof. intros Hans. unfold validate_security_files. presence_check. Qed.

Lemma local_validate_security_files fs : local (validate_security_files fs).
Proof. unfold validate_security_files. presence_check. Qed.

Lemma safe_validate_source_files fs : exists_answers fs → safe (validate_source_files fs).
Proof. intros Hans. unfold validate_source_files. presence_check. Qed.

Lemma local_validate_source_files fs : local (validate_source_files fs).
Proof. unfold validate_source_files. presence_check. Qed.

Lemma safe_validate_documentation fs :
  exists_answers fs → safe (validate_documentation fs).
Proof. intros Hans. unfold validate_documentation. presence_check. Qed.

Lemma local_validate_documentation fs : local (validate_documentation fs).
Proof. unfold validate_documentation. presence_check. Qed.

Lemma safe_validate_ci_cd fs : exists_answers fs → safe (validate_ci_cd fs).
Proof. intros Hans. unfold validate_ci_cd. presence_check. Qed.

Lemma local_validate_ci_cd fs : local (validate_ci_cd fs).
Proof. unfold validate_ci_cd. presence_check. Qed.

Lemma checks_safe_local rt fs :
  exists_answers fs →
  Forall (λ check, safe check ∧ local check) (checks rt fs).
Proof.
  intros Hans. unfold checks.
  apply List.Forall_cons;
    [split; [by apply safe_validate_env_file | apply local_validate_env_file]|].
  apply List.Forall_cons;
    [split; [by apply safe_validate_firebase_config
            | apply local_validate_firebase_config]|].
  apply List.Forall_cons;
    [split; [by apply safe_validate_build_files | apply local_validate_build_files]|].
  apply List.Forall_cons;
    [split; [by apply safe_validate_security_files
            | apply local_validate_security_files]|].
  apply List.Forall_cons;
    [split; [by apply safe_validate_source_files | apply local_validate_source_files]|].
  apply List.Forall_cons;
    [split; [by apply safe_validate_documentation
            | apply local_validate_documentation]|].
  apply List.Forall_cons;
    [split; [by apply safe_validate_ci_cd | apply local_validate_ci_cd]|].
  apply List.Forall_nil.
Qed.

Lemma safe_run_checks rt fs : exists_answers fs → safe (run_checks rt fs).
Proof.
  intros Hans. unfold run_checks.
  apply safe_bind; [by apply safe_validate_env_file | intros _].
  apply safe_bind; [by apply safe_validate_firebase_config | intros _].
  apply safe_bind; [by apply safe_validate_build_files | intros _].
  apply safe_bind; [by apply safe_validate_security_files | intros _].
  apply safe_bind; [by apply safe_validate_source_files | intros _].
  apply safe_bind; [by apply safe_validate_documentation | intros _].
  by apply safe_validate_ci_cd.
Qed.

Lemma local_run_checks rt fs : local (run_checks rt fs).
Proof.
  unfold run_checks.
  apply local_bind; [apply local_validate_env_file | intros _].
  apply local_bind; [apply local_validate_firebase_config | intros _].
  apply local_bind; [apply local_validate_build_files | intros _].
  apply local_bind; [apply local_validate_security_files | intros _].
  apply local_bind; [apply local_validate_source_files | intros _].
  apply local_bind; [apply local_validate_documentation | intros _].
  apply local_validate_ci_cd.
Qed.

(** A check that returns when run alone returns from every state. *)
Lemma returned_local_run (m : M unit) s :
  fst (m init) = Ret tt → local m → m s = (Ret tt, record_after s (recorded m)).
Proof. intros Hret Hl. by rewrite (Hl s), Hret. Qed.

(** When each of the seven checks returns, the runner returns, and what
    it records is what the seven checks record, in order. *)
Lemma recorded_run_checks_returned rt fs :
  Forall (λ check, fst (check init) = Ret tt) (checks rt fs) →
  fst (run_checks rt fs init) = Ret tt
  ∧ recorded (run_checks rt fs) =
    foldr (λ check d, record_after (recorded check) d) init (checks rt fs).
Proof.
  unfold checks. intros H.
  apply Forall_cons in H as [H1 H]. apply Forall_cons in H as [H2 H].
  apply Forall_cons in H as [H3 H]. apply Forall_cons in H as [H4 H].
  apply Forall_cons in H as [H5 H]. apply Forall_cons in H as [H6 H].
  apply Forall_cons in H as [H7 _].
  unfold run_checks, recorded at 1. cbn [foldr].
  rewrite (bind_ret_run _ _ _ _ _
    (returned_local_run _ _ H1 (local_validate_env_file rt fs))).
  rewrite (bind_ret_run _ _ _ _ _
    (returned_local_run _ _ H2 (local_validate_firebase_config rt fs))).
  rewrite (bind_ret_run _ _ _ _ _
    (returned_local_run _ _ H3 (local_validate_build_files fs))).
  rewrite (bind_ret_run _ _ _ _ _
    (returned_local_run _ _ H4 (local_validate_security_files fs))).
  rewrite (bind_ret_run _ _ _ _ _
    (returned_local_run _ _ H5 (local_validate_source_files fs))).
  rewrite (bind_ret_run _ _ _ _ _
    (returned_local_run _ _ H6 (local_validate_documentation fs))).
  rewrite (returned_local_run _ _ H7 (local_validate_ci_cd fs)).
  cbn [fst snd]. split; [done|].
  rewrite record_after_init_l, record_after_init_r, !record_after_assoc.
  reflexivity.
Qed.

Lemma safe_returned (m : M unit) : safe m → fst (m init) = Ret tt.
Proof. intros H. destruct (H init) as ([] & s' & ->). done. Qed.

(** When every [Path.exists] answers, what the runner records is what
    the seven checks record, in order. *)
Lemma recorded_run_checks rt fs :
  exists_answers fs →
  recorded (run_checks rt fs) =
  foldr (λ check d, record_after (recorded check) d) init (checks rt fs).
Proof.
  intros Hans. apply recorded_run_checks_returned.
  eapply Forall_impl; [by apply checks_safe_local|].
  intros check [Hs _]. by apply safe_returned.
Qed.

(* ===================================================================== *)
(** ** The report and the exit status *)
(* ===================================================================== *)

Lemma printed_printed s out1 out2 :
  printed (printed s out1) out2 = printed s (out1 ++ out2).
Proof. unfold printed; cbn. by rewrite app_assoc. Qed.

Lemma print_run rt line s :
  encodable line = true → print rt line s = (Ret tt, printed s [line]).
Proof. intros H. unfold print. by rewrite H. Qed.

Lemma quiet_print rt line : encodable line = true → quiet (print rt line).
Proof. intros H s. exists [line]. by apply print_run. Qed.

Lemma quiet_ret : quiet (mret tt).
Proof. intros s. exists []. unfold printed. rewrite app_nil_r. by destruct s. Qed.

Lemma quiet_bind (m k : M unit) : quiet m → quiet k → quiet (m;; k).
Proof.
  intros Hm Hk s. destruct (Hm s) as [out1 E1].
  destruct (Hk (printed s out1)) as [out2 E2].
  exists (out1 ++ out2). rewrite (bind_ret_run _ _ _ _ _ E1), E2.
  by rewrite printed_printed.
Qed.

Lemma quiet_for_each {A} (l : list A) (body : A → M unit) :
  Forall (λ x, quiet (body x)) l → quiet (for_each l body).
Proof.
  induction 1 as [|x l Hx _ IH]; cbn [for_each].
  - apply quiet_ret.
  - apply quiet_bind; [exact Hx | exact IH].
Qed.

Lemma quiet_print_section rt header msgs :
  encodable header = true →
  Forall (λ msg, encodable msg = true) msgs →
  quiet (print_section rt header msgs).
Proof.
  intros Hh Hmsgs. unfold print_section. destruct msgs; cbn [when]; [apply quiet_ret|].
  apply quiet_bind; [by apply quiet_print|].
  apply quiet_bind; [|by apply quiet_print].
  apply quiet_for_each. eapply Forall_impl; [exact Hmsgs|].
  intros msg Hmsg. apply quiet_print. by rewrite encodable_app, Hmsg.
Qed.

Lemma printable_lists s :
  printable s →
  Forall (λ msg, encodable msg = true) (info s)
  ∧ Forall (λ msg, encodable msg = true) (warnings s)
  ∧ Forall (λ msg, encodable msg = true) (errors s).
Proof.
  unfold printable, messages. rewrite !Forall_app. tauto.
Qed.

(** A run in which the checks return and every recorded message can
    be printed: [validate_all] returns, with the lists the checks
    recorded, and says whether the error list is empty. *)
Lemma validate_all_run_returned rt fs :
  fst (run_checks rt fs init) = Ret tt →
  let d := recorded (run_checks rt fs) in
  printable d →
  ∃ final,
    validate_all rt fs init
    = (Ret (match errors d with [] => true | _ :: _ => false end), final)
    ∧ errors final = errors d ∧ warnings final = warnings d ∧ info final = info d
    ∧ py "🎯 Success rate: " ++ format_1f rt (success_rate d) ++ py "%" ∈ stdout final.
Proof.
  intros Hret d Hd. destruct (printable_lists d Hd) as (Pi & Pw & Pe).
  unfold validate_all.
  erewrite bind_ret_run by reflexivity.
  erewrite bind_ret_run
    by (apply returned_local_run; [exact Hret | apply local_run_checks]).
  fold d. erewrite bind_ret_run by reflexivity.
  set (s1 := record_after _ d).
  assert (Hs1 : errors s1 = errors d ∧ warnings s1 = warnings d ∧ info s1 = info d)
    by done.
  destruct Hs1 as (He & Hw & Hi).
  assert (Hrate : success_rate s1 = success_rate d)
    by (unfold success_rate, total_checks; by rewrite He, Hw, Hi).
  rewrite He, Hw, Hi, Hrate.
  destruct (quiet_print_section rt (py "✅ Configuration Status:") (info d)
              eq_refl Pi s1) as [o1 E1].
  rewrite (bind_ret_run _ _ _ _ _ E1).
  destruct (quiet_print_section rt (py "⚠️  Warnings:") (warnings d)
              eq_refl Pw (printed s1 o1)) as [o2 E2].
  rewrite (bind_ret_run _ _ _ _ _ E2).
  destruct (quiet_print_section rt (py "❌ Errors:") (errors d)
              eq_refl Pe (printed (printed s1 o1) o2)) as [o3 E3].
  rewrite (bind_ret_run _ _ _ _ _ E3).
  erewrite bind_ret_run
    by (apply print_run; rewrite !encodable_app, !encodable_str_of_nat; reflexivity).
  erewrite bind_ret_run
    by (apply print_run; rewrite !encodable_app, format_1f_encodable; reflexivity).
  destruct (errors d) as [|e es] eqn:Ee; [destruct (warnings d) as [|w ws] eqn:Ew|];
    (erewrite bind_ret_run by reflexivity); cbn [mret M_ret ret];
    eexists; (split; [reflexivity|]); cbn [errors warnings info stdout printed];
    rewrite ?He, ?Hw, ?Hi, ?Ee, ?Ew; (repeat split; try done);
    rewrite !elem_of_app; left; right; by apply list_elem_of_singleton.
Qed.

Lemma validate_all_run rt fs :
  exists_answers fs →
  let d := recorded (run_checks rt fs) in
  printable d →
  ∃ final,
    validate_all rt fs init
    = (Ret (match errors d with [] => true | _ :: _ => false end), final)
    ∧ errors final = errors d ∧ warnings final = warnings d ∧ info final = info d
    ∧ py "🎯 Success rate: " ++ format_1f rt (success_rate d) ++ py "%" ∈ stdout final.
Proof.
  intros Hans. apply validate_all_run_returned.
  by apply safe_returned, safe_run_checks.
Qed.

Lemma lists_of_foldr_record_after (l : list (M unit)) :
  let d := foldr (λ check d, record_after (recorded check) d) init l in
  errors d = concat (map (λ check, errors (recorded check)) l)
  ∧ warnings d = concat (map (λ check, warnings (recorded check)) l)
  ∧ info d = concat (map (λ check, info (recorded check)) l).
Proof.
  induction l as [|check l IH]; cbn.
  - done.
  - destruct IH as (-> & -> & ->). done.
Qed.

(** Printing never touches the lists, and neither does the part of
    [validate_all] that follows the checks. *)
Lemma keeps_lists_print rt line : keeps_lists (print rt line).
Proof. intros s. unfold print. by destruct (encodable line). Qed.

Lemma keeps_lists_ret {A} (a : A) : keeps_lists (mret a).
Proof. by intros s. Qed.

Lemma keeps_lists_bind {A B} (m : M A) (k : A → M B) :
  keeps_lists m → (∀ a, keeps_lists (k a)) → keeps_lists (m ≫= k).
Proof.
  intros Hm Hk s. rewrite bind_run. specialize (Hm s).
  destruct (m s) as [[a|e] s']; cbn [snd] in Hm; [|exact Hm].
  destruct (Hk a s') as (-> & -> & ->). exact Hm.
Qed.

Lemma keeps_lists_for_each {A} (l : list A) (body : A → M unit) :
  (∀ x, keeps_lists (body x)) → keeps_lists (for_each l body).
Proof.
  intros Hb. induction l as [|x l IH]; cbn [for_each].
  - apply keeps_lists_ret.
  - apply keeps_lists_bind; [apply Hb | intros _; exact IH].
Qed.

Lemma keeps_lists_print_section rt header msgs :
  keeps_lists (print_section rt header msgs).
Proof.
  unfold print_section. destruct msgs; cbn [when]; [apply keeps_lists_ret|].
  apply keeps_lists_bind; [apply keeps_lists_print | intros _].
  apply keeps_lists_bind; [|intros _; apply keeps_lists_print].
  apply keeps_lists_for_each. intros; apply keeps_lists_print.
Qed.

(** Whatever happens, the lists a run ends with are the lists its
    checks recorded. *)
Lemma validate_all_lists rt fs :
  let d := recorded (run_checks rt fs) in
  let final := snd (validate_all rt fs init) in
  errors final = errors d ∧ warnings final = warnings d ∧ info final = info d.
Proof.
  intros d final. unfold final, validate_all.
  erewrite bind_ret_run by reflexivity.
  rewrite bind_run, (local_run_checks rt fs _). fold d.
  destruct (fst (run_checks rt fs init)) as [[]|e]; [|done].
  erewrite bind_ret_run by reflexivity.
  set (s1 := record_after _ d).
  assert (Hs1 : errors s1 = errors d ∧ warnings s1 = warnings d ∧ info s1 = info d)
    by done.
  destruct Hs1 as (<- & <- & <-).
  apply (keeps_lists_bind (print_section rt _ _)); [apply keeps_lists_print_section|].
  intros _.
  apply (keeps_lists_bind (print_section rt _ _)); [apply keeps_lists_print_section|].
  intros _.
  apply (keeps_lists_bind (print_section rt _ _)); [apply keeps_lists_print_section|].
  intros _.
  apply (keeps_lists_bind (print rt _)); [apply keeps_lists_print | intros _].
  apply (keeps_lists_bind (print rt _)); [apply keeps_lists_print | intros _].
  destruct (errors s1); [destruct (warnings s1)|];
    (apply (keeps_lists_bind (print rt _)); [apply keeps_lists_print | intros _]);
    apply keeps_lists_ret.
Qed.

(** The claim as first stated fails when an exception leaves the
    runner: with a project id that is a lone surrogate every check
    passes and no error is recorded, but the info line that holds the id
    cannot be printed, and the process ends with status 1. *)
Lemma C1_counterexample_unprintable_project_id :
  errors (snd (main rt0 (fs_full lone_surrogate))) = []
  ∧ fst (main rt0 (fs_full lone_surrogate)) = 1%Z.
Proof. split; vm_compute; reflexivity. Qed.

(** C1 (amended). In a run that no exception leaves (every
    [Path.exists] answers and every recorded message can be printed), the
    exit status is 1 exactly when the seven checks recorded at least one
    error, and 0 whenever they recorded none, whatever the warnings: the
    final error list is the concatenation of the errors of the seven
    checks, and the status is computed from it alone. *)
Theorem C1_exit_code_iff_error_recorded rt fs :
  exists_answers fs →
  printable (recorded (run_checks rt fs)) →
  let code := fst (main rt fs) in
  let final := snd (main rt fs) in
  errors final = concat (map (λ check, errors (recorded check)) (checks rt fs))
  ∧ (code = 1%Z ↔ errors final ≠ [])
  ∧ (errors final = [] → code = 0%Z).
Proof.
  intros Hans Hd. cbn zeta. unfold main.
  destruct (validate_all_run rt fs Hans Hd) as (final & E & He & _).
  rewrite E. cbn [fst snd]. rewrite He. clear E He.
  split; [rewrite recorded_run_checks by done; apply lists_of_foldr_record_after|].
  destruct (errors (recorded (run_checks rt fs))) as [|e es].
  - split; [|done]. split; [intros H; discriminate H | intros H; by destruct H].
  - split; [|intros H; discriminate H]. split; [intros _ H; discriminate H | done].
Qed.

Lemma C1_exit_code_iff_error_recorded_witness :
  let code := fst (main rt0 (fs_full (py "my-app"))) in
  let final := snd (main rt0 (fs_full (py "my-app"))) in
  errors final
  = concat (map (λ check, errors (recorded check)) (checks rt0 (fs_full (py "my-app"))))
  ∧ (code = 1%Z ↔ errors final ≠ [])
  ∧ (errors final = [] → code = 0%Z).
Proof.
  apply (C1_exit_code_iff_error_recorded rt0 (fs_full (py "my-app"))).
  - intros file_path. eexists. reflexivity.
  - decide_by_computation.
Defined.




(* ===================================================================== *)
(** ** The environment file check *)
(* ===================================================================== *)

(** C9. However the env file reads, the loop over its lines ends
    normally, and the map it builds holds [key ↦ value] exactly when some
    line stands for the entry [(key, value)] (stripped line non-empty, not
    starting with [#], cut at its first [=], both sides stripped) and no
    later line stands for an entry with the same key; when the reading
    ends without an exception this map is what the check goes on with. *)
Theorem C9_env_map_last_entry_wins rt lines :
  ∃ env_vars : gmap pystr pystr,
    env_lines rt ∅ lines = Ret env_vars
    ∧ (∀ fs, fs_lines fs env_file = (lines, None) → read_env_vars rt fs = Ret env_vars)
    ∧ ∀ key value,
        env_vars !! key = Some value ↔
          ∃ i line,
            lines !! i = Some line ∧ line_entry line key value
            ∧ ∀ j later value',
                (i < j)%nat → lines !! j = Some later → ¬ line_entry later key value'.
Proof.
  destruct (env_lines_run rt lines ∅) as (m & Hrun & Hm).
  exists m. split; [done|]. split.
  - intros fs Hread. unfold read_env_vars. by rewrite Hread, Hrun.
  - intros k v. rewrite Hm. split.
    + intros [H|[H _]]; [done | by rewrite lookup_empty in H].
    + intros H. by left.
Qed.

(** A value keeps the [=] signs after the first one, and a repeated key
    keeps its last value. *)
Example env_lines_sample :
  env_lines rt0 ∅ [py "A=1" ++ nl; py " URL = http://h/?x=1&y=2 " ++ nl;
                   py "#A=3" ++ nl; py "A = 2" ++ nl; py "novalue" ++ nl]
  = Ret (<[py "A" := py "2"]> (<[py "URL" := py "http://h/?x=1&y=2"]> ∅)).
Proof. vm_compute. reflexivity. Qed.

(** C2. Without an env file the check records a single message and
    nothing else: a warning when the template exists, an error when it
    does not; no variable is looked at. (When the test for the template
    itself raises, nothing is recorded and the exception leaves the
    check.) *)
Theorem C2_env_file_absent rt fs s :
  fs_exists fs env_file = Ret false →
  validate_env_file rt fs s =
  match fs_exists fs env_template with
  | Ret true =>
      (Ret tt,
       {| errors := errors s;
          warnings := warnings s ++
            [py "No .env file found. Copy .env.template to .env and fill in your values."];
          info := info s; stdout := stdout s |})
  | Ret false =>
      (Ret tt,
       {| errors := errors s ++ [py "Neither .env nor .env.template file found!"];
          warnings := warnings s; info := info s; stdout := stdout s |})
  | Raise e => (Raise e, s)
  end.
Proof.
  intros H. unfold validate_env_file. answer_exists H.
  rewrite bind_run. unfold lift.
  by destruct (fs_exists fs env_template) as [[|]|e].
Qed.

Lemma C2_env_file_absent_witness :
  validate_env_file rt0 fs_empty init =
  (Ret tt,
   {| errors := [py "Neither .env nor .env.template file found!"];
      warnings := []; info := []; stdout := [] |}).
Proof. apply (C2_env_file_absent rt0 fs_empty init). reflexivity. Defined.

Lemma placeholders_spec value :
  value ∈ placeholders ↔
  value = py "" ∨ value = py "your_placeholder_value" ∨ value = py "placeholder".
Proof.
  unfold placeholders. rewrite !elem_of_cons, elem_of_nil. tauto.
Qed.

Lemma check_required_var_run env_vars var s :
  check_required_var env_vars var s =
  (Ret tt,
   {| errors := errors s; warnings := warnings s ++ var_warnings env_vars var;
      info := info s; stdout := stdout s |}).
Proof.
  unfold var_warnings, recorded, check_required_var.
  destruct (env_vars !! var) as [value|]; [|done].
  destruct (bool_decide (value ∈ placeholders)); cbn; [done|].
  rewrite app_nil_r. by destruct s.
Qed.

Lemma var_warnings_cases env_vars var :
  var_warnings env_vars var =
  match env_vars !! var with
  | None => [msg_missing_var var]
  | Some value =>
      if bool_decide (value ∈ placeholders) then [msg_placeholder_var var] else []
  end.
Proof.
  unfold var_warnings, recorded, check_required_var.
  destruct (env_vars !! var) as [value|]; [|done].
  by destruct (bool_decide (value ∈ placeholders)).
Qed.

Lemma for_each_required_var_run env_vars vars : ∀ s,
  for_each vars (check_required_var env_vars) s =
  (Ret tt,
   {| errors := errors s;
      warnings := warnings s ++ concat (map (var_warnings env_vars) vars);
      info := info s; stdout := stdout s |}).
Proof.
  induction vars as [|var vars IH]; intros s; cbn [for_each map concat].
  - rewrite app_nil_r. by destruct s.
  - erewrite bind_ret_run by apply check_required_var_run.
    rewrite IH. cbn [errors warnings info stdout]. by rewrite app_assoc.
Qed.

(** The check on an env file that exists and reads to its end. *)
Lemma validate_env_file_readable rt fs lines env_vars s :
  fs_exists fs env_file = Ret true →
  fs_lines fs env_file = (lines, None) →
  env_lines rt ∅ lines = Ret env_vars →
  validate_env_file rt fs s =
  (Ret tt,
   {| errors := errors s;
      warnings := warnings s ++ concat (map (var_warnings env_vars) required_vars);
      info := info s ++
        [py "✓ .env file found";
         py "✓ Found " ++ str_of_nat (size env_vars) ++ py " environment variables"];
      stdout := stdout s |}).
Proof.
  intros Hex Hread Hrun. unfold validate_env_file, read_env_vars.
  answer_exists Hex. rewrite Hread, Hrun.
  erewrite bind_ret_run by reflexivity.
  erewrite bind_ret_run by reflexivity.
  cbv beta iota.
  erewrite bind_ret_run by apply for_each_required_var_run.
  unfold append_info. cbn [errors warnings info stdout].
  by rewrite <- app_assoc.
Qed.

(** Which of the warnings about required variables mention which
    variable: each mentions its own variable and no other. *)
Lemma mentions_own_variable var var' :
  var ∈ required_vars → var' ∈ required_vars →
  contains var (msg_missing_var var') = bool_decide (var = var')
  ∧ contains var (msg_placeholder_var var') = bool_decide (var = var').
Proof.
  unfold required_vars. rewrite !elem_of_cons, !elem_of_nil.
  intros [->|[->|[->|[]]]] [->|[->|[->|[]]]]; vm_compute; split; reflexivity.
Qed.

Lemma filter_var_warnings env_vars var var' :
  var ∈ required_vars → var' ∈ required_vars →
  List.filter (contains var) (var_warnings env_vars var')
  = if bool_decide (var = var') then var_warnings env_vars var' else [].
Proof.
  intros Hv Hv'. destruct (mentions_own_variable var var' Hv Hv') as [Em Ep].
  rewrite var_warnings_cases.
  destruct (env_vars !! var') as [value|].
  - destruct (bool_decide (value ∈ placeholders)); cbn [List.filter].
    + rewrite Ep. by destruct (bool_decide (var = var')).
    + by destruct (bool_decide (var = var')).
  - cbn [List.filter]. rewrite Em. by destruct (bool_decide (var = var')).
Qed.

Lemma filter_concat_var_warnings env_vars var (vars : list pystr) :
  var ∈ required_vars → Forall (λ var', var' ∈ required_vars) vars →
  List.filter (contains var) (concat (map (var_warnings env_vars) vars))
  = concat (map (λ var', if bool_decide (var = var')
                         then var_warnings env_vars var' else []) vars).
Proof.
  intros Hv. induction 1 as [|var' vars Hv' _ IH]; cbn [map concat List.filter].
  - reflexivity.
  - by rewrite List.filter_app, IH, filter_var_warnings.
Qed.

(** Among the warnings of the loop, those that mention a required
    variable are the ones the loop added for it. *)
Lemma about_required_var env_vars var :
  var ∈ required_vars →
  List.filter (contains var) (concat (map (var_warnings env_vars) required_vars))
  = var_warnings env_vars var.
Proof.
  intros Hv. rewrite filter_concat_var_warnings; [|done|by apply Forall_forall].
  generalize (var_warnings env_vars). intros W.
  revert Hv. unfold required_vars. rewrite !elem_of_cons, !elem_of_nil.
  intros [->|[->|[->|[]]]]; cbn [map concat];
    repeat match goal with
    | |- context [bool_decide (?a = ?b)] =>
        let b' := eval vm_compute in (bool_decide (a = b)) in
        change (bool_decide (a = b)) with b'
    end; cbv iota; by rewrite ?app_nil_r.
Qed.

(** C3. When the env file exists and reads to its end, the check adds
    no error, and among the warnings it adds, those that mention a
    required variable are: the one "not found" warning when the variable
    is absent from the map; the one "placeholder" warning when its value
    is the empty string, [your_placeholder_value] or [placeholder]; none
    when it has any other value. *)
Theorem C3_required_variable_warnings rt fs lines s :
  fs_exists fs env_file = Ret true →
  fs_lines fs env_file = (lines, None) →
  ∃ (env_vars : gmap pystr pystr) (added : list pystr),
    env_lines rt ∅ lines = Ret env_vars
    ∧ validate_env_file rt fs s =
      (Ret tt,
       {| errors := errors s; warnings := warnings s ++ added;
          info := info s ++
            [py "✓ .env file found";
             py "✓ Found " ++ str_of_nat (size env_vars) ++ py " environment variables"];
          stdout := stdout s |})
    ∧ ∀ var, var ∈ required_vars →
        let about := List.filter (contains var) added in
        (env_vars !! var = None → about = [msg_missing_var var])
        ∧ (∀ value, env_vars !! var = Some value →
             value = py "" ∨ value = py "your_placeholder_value" ∨ value = py "placeholder" →
             about = [msg_placeholder_var var])
        ∧ (∀ value, env_vars !! var = Some value →
             value ≠ py "" → value ≠ py "your_placeholder_value" → value ≠ py "placeholder" →
             about = []).
Proof.
  intros Hex Hread.
  destruct (env_lines_returns rt lines ∅) as [env_vars Hrun].
  exists env_vars, (concat (map (var_warnings env_vars) required_vars)).
  split; [done|]. split; [by apply (validate_env_file_readable rt fs lines)|].
  intros var Hvar. cbv zeta.
  rewrite (about_required_var env_vars var Hvar), var_warnings_cases.
  split; [|split].
  - by intros ->.
  - intros value -> Hp. by rewrite bool_decide_eq_true_2 by by apply placeholders_spec.
  - intros value -> N1 N2 N3. rewrite bool_decide_eq_false_2; [done|].
    rewrite placeholders_spec. tauto.
Qed.

Lemma C3_required_variable_warnings_witness :
  fs_exists (fs_full (py "my-app")) env_file = Ret true
  ∧ fs_lines (fs_full (py "my-app")) env_file = (good_env, None)
  ∧ ∃ (env_vars : gmap pystr pystr) (added : list pystr),
      env_lines rt0 ∅ good_env = Ret env_vars
      ∧ validate_env_file rt0 (fs_full (py "my-app")) init =
        (Ret tt,
         {| errors := errors init; warnings := warnings init ++ added;
            info := info init ++
              [py "✓ .env file found";
               py "✓ Found " ++ str_of_nat (size env_vars) ++ py " environment variables"];
            stdout := stdout init |})
      ∧ ∀ var, var ∈ required_vars →
          let about := List.filter (contains var) added in
          (env_vars !! var = None → about = [msg_missing_var var])
          ∧ (∀ value, env_vars !! var = Some value →
               value = py "" ∨ value = py "your_placeholder_value"
               ∨ value = py "placeholder" →
               about = [msg_placeholder_var var])
          ∧ (∀ value, env_vars !! var = Some value →
               value ≠ py "" → value ≠ py "your_placeholder_value" →
               value ≠ py "placeholder" →
               about = []).
Proof.
  split; [reflexivity|]. split; [reflexivity|].
  apply (C3_required_variable_warnings rt0 (fs_full (py "my-app")) good_env init);
    reflexivity.
Defined.

(* ===================================================================== *)
(** ** The credential file check *)
(* ===================================================================== *)

(** C4. A credential file that exists and is not valid JSON adds the
    "found" line and one error, and nothing about its structure or its
    project id. *)
Theorem C4_invalid_json_one_error rt fs s msg :
  fs_exists fs google_services = Ret true →
  fs_json fs google_services = Raise (JSONDecodeError msg) →
  validate_firebase_config rt fs s =
  (Ret tt,
   {| errors := errors s ++ [py "google-services.json is not valid JSON"];
      warnings := warnings s;
      info := info s ++ [py "✓ google-services.json found"];
      stdout := stdout s |}).
Proof.
  intros Hex Hload. unfold validate_firebase_config. answer_exists Hex. rewrite Hload.
  erewrite bind_ret_run by reflexivity. reflexivity.
Qed.

Lemma C4_invalid_json_one_error_witness :
  let fs := fs_of [google_services] ([], None)
                  (Raise (JSONDecodeError (py "Expecting value: line 1 column 1 (char 0)"))) in
  validate_firebase_config rt0 fs init =
  (Ret tt,
   {| errors := [py "google-services.json is not valid JSON"];
      warnings := [];
      info := [py "✓ google-services.json found"];
      stdout := [] |}).
Proof.
  cbv zeta.
  apply (C4_invalid_json_one_error rt0 _ init
           (py "Expecting value: line 1 column 1 (char 0)")); reflexivity.
Defined.

(** The check on a credential file that exists and loads. *)
Lemma validate_firebase_config_loaded rt fs config s :
  fs_exists fs google_services = Ret true →
  fs_json fs google_services = Ret config →
  validate_firebase_config rt fs s =
  try_except (check_structure rt config)
    (fun e =>
       match e with
       | JSONDecodeError _ => append_error (py "google-services.json is not valid JSON")
       | Exception _ =>
           append_warning (py "Could not validate google-services.json: " ++ str_of_exn e)
       end)
    {| errors := errors s; warnings := warnings s;
       info := info s ++ [py "✓ google-services.json found"]; stdout := stdout s |}.
Proof.
  intros Hex Hload. unfold validate_firebase_config. answer_exists Hex. rewrite Hload.
  erewrite bind_ret_run by reflexivity. reflexivity.
Qed.

Lemma check_structure_invalid rt config s :
  py_in rt (py "project_info") config = Ret false
  ∨ py_in rt (py "client") config = Ret false →
  (∀ e, py_in rt (py "project_info") config ≠ Raise e) →
  check_structure rt config s =
  (Ret tt,
   {| errors := errors s;
      warnings := warnings s ++ [py "google-services.json has invalid structure"];
      info := info s; stdout := stdout s |}).
Proof.
  intros H Hno. unfold check_structure, lift. rewrite !bind_run.
  destruct (py_in rt (py "project_info") config) as [[|]|e] eqn:E1.
  - destruct H as [H|H]; [discriminate H|]. rewrite !bind_run, H. reflexivity.
  - reflexivity.
  - by destruct (Hno e).
Qed.

(** C5. A credential file that loads as JSON but is not an object
    holding both [project_info] and [client] adds the "found" line and
    exactly one warning, and no error; for an object the warning is the
    "invalid structure" one. *)
Theorem C5_missing_keys_one_warning rt fs s config :
  fs_exists fs google_services = Ret true →
  fs_json fs google_services = Ret config →
  ¬ has_key (py "project_info") config ∨ ¬ has_key (py "client") config →
  ∃ warning,
    validate_firebase_config rt fs s =
    (Ret tt,
     {| errors := errors s; warnings := warnings s ++ [warning];
        info := info s ++ [py "✓ google-services.json found"];
        stdout := stdout s |})
    ∧ (∀ m, config = JDict m → warning = py "google-services.json has invalid structure").
Proof.
  intros Hex Hload Hmissing.
  rewrite (validate_firebase_config_loaded rt fs config s Hex Hload).
  unfold try_except.
  destruct config as [|b|z|f|str|l|m].
  1-4: (eexists; split; [reflexivity | intros m; discriminate]).
  - unfold check_structure, lift, py_in. run_binds.
    destruct (contains (py "project_info") str);
      [run_binds; destruct (contains (py "client") str)|];
      (eexists; split; [reflexivity | intros m; discriminate]).
  - unfold check_structure, lift, py_in. run_binds.
    destruct (existsb _ l);
      [run_binds; destruct (existsb _ l)|];
      (eexists; split; [reflexivity | intros m; discriminate]).
  - exists (py "google-services.json has invalid structure").
    split; [|done].
    rewrite check_structure_invalid; [done| |done].
    cbn [py_in has_key] in *.
    destruct Hmissing as [H|H]; [left|right]; by rewrite bool_decide_eq_false_2.
Qed.

Lemma C5_missing_keys_one_warning_witness :
  let config := JDict (<[py "client" := JList []]> ∅) in
  let fs := fs_of [google_services] ([], None) (Ret config) in
  ∃ warning,
    validate_firebase_config rt0 fs init =
    (Ret tt,
     {| errors := errors init; warnings := warnings init ++ [warning];
        info := info init ++ [py "✓ google-services.json found"];
        stdout := stdout init |})
    ∧ (∀ m, config = JDict m → warning = py "google-services.json has invalid structure").
Proof.
  cbv zeta.
  apply (C5_missing_keys_one_warning rt0 _ init (JDict (<[py "client" := JList []]> ∅)));
    [reflexivity | reflexivity |].
  left. cbn [has_key]. vm_compute. intros [x H]. discriminate H.
Defined.

Lemma eq_str_spec v str : eq_str v str = true ↔ v = JStr str.
Proof.
  destruct v; cbn; try (split; [discriminate | intros H; discriminate H]).
  unfold PyStr.eqb. rewrite bool_decide_eq_true. split; [by intros -> | by intros [= ->]].
Qed.

(** The statements after [json.load] on an object that holds both keys,
    with an object under [project_info]. *)
Lemma check_structure_project rt m project_info client s :
  m !! py "project_info" = Some (JDict project_info) →
  m !! py "client" = Some client →
  check_structure rt (JDict m) s =
  (if truthy (project_id_of project_info)
      && negb (eq_str (project_id_of project_info) default_project_id)
   then append_info (py "✓ Firebase project ID: "
                     ++ format_value rt (project_id_of project_info))
   else append_warning (py "Firebase project_id appears to be a placeholder")) s.
Proof.
  intros H1 H2. unfold check_structure, lift, py_in, subscript, dict_get.
  rewrite H1, H2. rewrite !bool_decide_eq_true_2 by eauto.
  run_binds. reflexivity.
Qed.

Lemma validate_firebase_config_project rt fs s m project_info client :
  fs_exists fs google_services = Ret true →
  fs_json fs google_services = Ret (JDict m) →
  m !! py "project_info" = Some (JDict project_info) →
  m !! py "client" = Some client →
  validate_firebase_config rt fs s =
  (Ret tt,
   if truthy (project_id_of project_info)
      && negb (eq_str (project_id_of project_info) default_project_id)
   then
     {| errors := errors s; warnings := warnings s;
        info := info s ++
          [py "✓ google-services.json found";
           py "✓ Firebase project ID: " ++ format_value rt (project_id_of project_info)];
        stdout := stdout s |}
   else
     {| errors := errors s;
        warnings := warnings s ++ [py "Firebase project_id appears to be a placeholder"];
        info := info s ++ [py "✓ google-services.json found"];
        stdout := stdout s |}).
Proof.
  intros Hex Hload H1 H2.
  rewrite (validate_firebase_config_loaded rt fs _ s Hex Hload).
  unfold try_except. rewrite (check_structure_project rt m project_info client _ H1 H2).
  destruct (truthy _ && negb _).
  - unfold append_info. cbn [errors warnings info stdout]. by rewrite <- app_assoc.
  - reflexivity.
Qed.

(** C6 (amended). For a credential file that loads as an object holding
    both [project_info] and [client], with an object under
    [project_info], the check adds the "found" line and then exactly one
    of two messages: the info line with the project id, or the
    "placeholder" warning; it adds the info line if and only if the
    project id is non-empty (true as a Python value) and differs from
    [aalay-student-housing]. *)
Theorem C6_info_iff_nonempty_and_not_default rt fs s m project_info client :
  fs_exists fs google_services = Ret true →
  fs_json fs google_services = Ret (JDict m) →
  m !! py "project_info" = Some (JDict project_info) →
  m !! py "client" = Some client →
  let project_id := project_id_of project_info in
  let reported :=
    {| errors := errors s; warnings := warnings s;
       info := info s ++
         [py "✓ google-services.json found";
          py "✓ Firebase project ID: " ++ format_value rt project_id];
       stdout := stdout s |} in
  let doubted :=
    {| errors := errors s;
       warnings := warnings s ++ [py "Firebase project_id appears to be a placeholder"];
       info := info s ++ [py "✓ google-services.json found"];
       stdout := stdout s |} in
  (validate_firebase_config rt fs s = (Ret tt, reported)
   ∨ validate_firebase_config rt fs s = (Ret tt, doubted))
  ∧ reported ≠ doubted
  ∧ (validate_firebase_config rt fs s = (Ret tt, reported)
     ↔ truthy project_id = true ∧ project_id ≠ JStr default_project_id).
Proof.
  intros Hex Hload H1 H2 project_id reported doubted.
  assert (Hne : reported ≠ doubted).
  { intros E. apply (f_equal (λ st, length (warnings st))) in E. cbn in E.
    rewrite length_app in E. cbn in E. lia. }
  rewrite (validate_firebase_config_project rt fs s m project_info client Hex Hload H1 H2).
  fold project_id. fold reported. fold doubted.
  destruct (truthy project_id) eqn:Ht; cbn [andb].
  - destruct (eq_str project_id default_project_id) eqn:Hd; cbn [negb].
    + apply eq_str_spec in Hd. split; [by right|]. split; [done|]. split.
      * intros E. destruct Hne. symmetry. exact (f_equal snd E).
      * by intros [_ H].
    + split; [by left|]. split; [done|]. split; [|done].
      intros _. split; [done|]. intros E%eq_str_spec. congruence.
  - split; [by right|]. split; [done|]. split.
    + intros E. destruct Hne. symmetry. exact (f_equal snd E).
    + by intros [H _].
Qed.

Lemma C6_info_iff_nonempty_and_not_default_witness :
  let fs := fs_full (py "my-app") in
  let project_id := JStr (py "my-app") in
  let reported :=
    {| errors := []; warnings := [];
       info := [py "✓ google-services.json found";
                py "✓ Firebase project ID: " ++ format_value rt0 project_id];
       stdout := [] |} in
  let doubted :=
    {| errors := [];
       warnings := [py "Firebase project_id appears to be a placeholder"];
       info := [py "✓ google-services.json found"];
       stdout := [] |} in
  (validate_firebase_config rt0 fs init = (Ret tt, reported)
   ∨ validate_firebase_config rt0 fs init = (Ret tt, doubted))
  ∧ reported ≠ doubted
  ∧ (validate_firebase_config rt0 fs init = (Ret tt, reported)
     ↔ truthy project_id = true ∧ project_id ≠ JStr default_project_id).
Proof.
  cbv zeta.
  exact (C6_info_iff_nonempty_and_not_default rt0 (fs_full (py "my-app")) init
           (<[py "project_info" := project_info_of (JStr (py "my-app"))]>
              (<[py "client" := JList []]> ∅))
           (<[py "project_id" := JStr (py "my-app")]> ∅) (JList [])
           eq_refl eq_refl eq_refl eq_refl).
Defined.

(** The claim as first stated fails on an empty project id: the id
    differs from the default, and yet the check adds the "placeholder"
    warning and no line with the id. *)
Lemma C6_counterexample_empty_project_id :
  let fs := fs_of [google_services] ([], None)
                  (Ret (credential (project_info_of (JStr (py ""))))) in
  JStr (py "") ≠ JStr default_project_id
  ∧ validate_firebase_config rt0 fs init =
    (Ret tt,
     {| errors := [];
        warnings := [py "Firebase project_id appears to be a placeholder"];
        info := [py "✓ google-services.json found"];
        stdout := [] |}).
Proof.
  cbv zeta. split.
  - intros H. vm_compute in H. discriminate H.
  - vm_compute. reflexivity.
Qed.

(** C10. With both keys present and an object under [project_info], a
    project id that is the empty string, or that is not given at all,
    gets the "placeholder" warning and no line with the id, although the
    empty string is not the default id. *)
Theorem C10_empty_project_id_is_placeholder rt fs s m project_info client :
  fs_exists fs google_services = Ret true →
  fs_json fs google_services = Ret (JDict m) →
  m !! py "project_info" = Some (JDict project_info) →
  m !! py "client" = Some client →
  project_info !! py "project_id" = None
  ∨ project_info !! py "project_id" = Some (JStr (py "")) →
  py "" ≠ default_project_id
  ∧ validate_firebase_config rt fs s =
    (Ret tt,
     {| errors := errors s;
        warnings := warnings s ++ [py "Firebase project_id appears to be a placeholder"];
        info := info s ++ [py "✓ google-services.json found"];
        stdout := stdout s |}).
Proof.
  intros Hex Hload H1 H2 Hid. split.
  - intros H. vm_compute in H. discriminate H.
  - rewrite (validate_firebase_config_project rt fs s m project_info client Hex Hload H1 H2).
    assert (project_id_of project_info = JStr (py "")) as ->.
    { unfold project_id_of. by destruct Hid as [-> | ->]. }
    reflexivity.
Qed.

Lemma C10_empty_project_id_is_placeholder_witness :
  let fs := fs_of [google_services] ([], None)
                  (Ret (credential (JDict ∅))) in
  py "" ≠ default_project_id
  ∧ validate_firebase_config rt0 fs init =
    (Ret tt,
     {| errors := errors init;
        warnings := warnings init ++ [py "Firebase project_id appears to be a placeholder"];
        info := info init ++ [py "✓ google-services.json found"];
        stdout := stdout init |}).
Proof.
  cbv zeta.
  apply (C10_empty_project_id_is_placeholder rt0 _ init
           (<[py "project_info" := JDict ∅]> (<[py "client" := JList []]> ∅))
           ∅ (JList [])).
  - reflexivity.
  - reflexivity.
  - vm_compute. reflexivity.
  - vm_compute. reflexivity.
  - left. reflexivity.
Defined.

(* ===================================================================== *)
(** ** A fully configured project *)
(* ===================================================================== *)

(** A presence check over files that all exist adds one "found" line
    per file. *)
Lemma for_each_all_present fs files (missing : pystr → M unit) : ∀ s,
  (∀ file_path, file_path ∈ files → fs_exists fs file_path = Ret true) →
  for_each files
    (λ file_path,
       found ← lift (fs_exists fs file_path);
       if found : bool then append_info (msg_found file_path)
       else missing file_path) s
  = (Ret tt,
     {| errors := errors s; warnings := warnings s;
        info := info s ++ map msg_found files; stdout := stdout s |}).
Proof.
  induction files as [|file_path files IH]; intros s Hall; cbn [for_each map].
  - rewrite app_nil_r. by destruct s.
  - pose proof (Hall file_path ltac:(by left)) as Hfirst.
    rewrite bind_run. answer_exists Hfirst.
    unfold append_info at 1. cbv beta iota.
    rewrite IH by (intros p Hp; apply Hall; by right).
    cbn [errors warnings info stdout]. by rewrite <- app_assoc.
Qed.

Lemma listed_files_spec file_path :
  file_path ∈ listed_files ↔
  file_path = env_file ∨ file_path = google_services
  ∨ file_path ∈ required_files ∨ file_path ∈ security_files
  ∨ file_path ∈ critical_files ∨ file_path ∈ doc_files ∨ file_path ∈ ci_files.
Proof.
  unfold listed_files.
  generalize env_file google_services required_files security_files
    critical_files doc_files ci_files.
  intros. rewrite !elem_of_cons, !elem_of_app. tauto.
Qed.

Section Configured.

Context (rt : runtime) (fs : filesystem).
Hypothesis all_present :
  ∀ file_path, file_path ∈ listed_files → fs_exists fs file_path = Ret true.

Lemma recorded_present (files : list pystr) (missing : pystr → M unit) :
  (∀ file_path, file_path ∈ files → file_path ∈ listed_files) →
  for_each files
    (λ file_path,
       found ← lift (fs_exists fs file_path);
       if found : bool then append_info (msg_found file_path)
       else missing file_path) init
  = (Ret tt,
     {| errors := []; warnings := []; info := map msg_found files; stdout := [] |}).
Proof.
  intros Hsub. rewrite for_each_all_present; [done|].
  intros p Hp. by apply all_present, Hsub.
Qed.

Lemma recorded_presence_checks :
  validate_build_files fs init
  = (Ret tt,
     {| errors := []; warnings := []; info := map msg_found required_files;
        stdout := [] |})
  ∧ validate_security_files fs init
    = (Ret tt,
       {| errors := []; warnings := []; info := map msg_found security_files;
          stdout := [] |})
  ∧ validate_source_files fs init
    = (Ret tt,
       {| errors := []; warnings := []; info := map msg_found critical_files;
          stdout := [] |})
  ∧ validate_documentation fs init
    = (Ret tt,
       {| errors := []; warnings := []; info := map msg_found doc_files;
          stdout := [] |})
  ∧ validate_ci_cd fs init
    = (Ret tt,
       {| errors := []; warnings := []; info := map msg_found ci_files;
          stdout := [] |}).
Proof.
  repeat split; apply recorded_present; intros p Hp; apply listed_files_spec; tauto.
Qed.

End Configured.

Lemma success_rate_same_lists s s' :
  errors s = errors s' → warnings s = warnings s' → info s = info s' →
  success_rate s = success_rate s'.
Proof. intros He Hw Hi. unfold success_rate, total_checks. by rewrite He, Hw, Hi. Qed.

Lemma project_id_of_given project_info project_id :
  project_info !! py "project_id" = Some project_id →
  project_id_of project_info = project_id.
Proof. unfold project_id_of. by intros ->. Qed.

(** The "found" lines of the listed files can all be printed. *)
Lemma encodable_found_lines :
  Forall (λ msg, encodable msg = true)
         (map msg_found
              (required_files ++ security_files ++ critical_files ++ doc_files
               ++ ci_files)).
Proof. decide_by_computation. Qed.

(** C8 (amended). In a project directory where every listed file
    exists, the env file reads to its end and sets the three required
    variables to distinct values outside the placeholder set, and the
    credential file loads as an object with [client] and with a
    [project_info] object whose project id is non-empty, differs from
    [aalay-student-housing] and can be printed (holds no lone
    surrogate), the run records no warning and no error, records 21 info
    lines, exits with status 0, and prints a success rate computed as
    exactly 100. *)
Theorem C8_configured_project_passes rt fs lines env_vars v1 v2 v3
    m project_info client project_id :
  (∀ file_path, file_path ∈ listed_files → fs_exists fs file_path = Ret true) →
  fs_lines fs env_file = (lines, None) →
  env_lines rt ∅ lines = Ret env_vars →
  env_vars !! py "API_BASE_URL_PROD" = Some v1 →
  env_vars !! py "MAPBOX_ACCESS_TOKEN_PROD" = Some v2 →
  env_vars !! py "FIREBASE_PROJECT_ID_PROD" = Some v3 →
  v1 ∉ placeholders → v2 ∉ placeholders → v3 ∉ placeholders →
  NoDup [v1; v2; v3] →
  fs_json fs google_services = Ret (JDict m) →
  m !! py "project_info" = Some (JDict project_info) →
  m !! py "client" = Some client →
  project_info !! py "project_id" = Some project_id →
  truthy project_id = true →
  project_id ≠ JStr default_project_id →
  encodable (format_value rt project_id) = true →
  let final := snd (main rt fs) in
  fst (main rt fs) = 0%Z
  ∧ errors final = []
  ∧ warnings final = []
  ∧ length (info final) = 21%nat
  ∧ success_rate final = 100%float
  ∧ py "🎯 Success rate: " ++ format_1f rt 100%float ++ py "%" ∈ stdout final.
Proof.
  intros Hall Hread Hrun E1 E2 E3 P1 P2 P3 _ Hload Hinfo Hclient Hid Htrue Hdiff Henc.
  assert (Hex_env : fs_exists fs env_file = Ret true)
    by (apply Hall, listed_files_spec; tauto).
  assert (Hex_cred : fs_exists fs google_services = Ret true)
    by (apply Hall, listed_files_spec; tauto).
  assert (Henv : validate_env_file rt fs init
                 = (Ret tt,
                    {| errors := []; warnings := [];
                       info := [py "✓ .env file found";
                                py "✓ Found " ++ str_of_nat (size env_vars)
                                ++ py " environment variables"];
                       stdout := [] |})).
  { rewrite (validate_env_file_readable rt fs lines env_vars init Hex_env Hread Hrun).
    unfold required_vars. cbn [map concat].
    rewrite !var_warnings_cases, E1, E2, E3.
    rewrite !bool_decide_eq_false_2 by done. reflexivity. }
  assert (Hcred : validate_firebase_config rt fs init
                  = (Ret tt,
                     {| errors := []; warnings := [];
                        info := [py "✓ google-services.json found";
                                 py "✓ Firebase project ID: "
                                 ++ format_value rt project_id];
                        stdout := [] |})).
  { rewrite (validate_firebase_config_project rt fs init m project_info client
               Hex_cred Hload Hinfo Hclient).
    rewrite (project_id_of_given _ _ Hid), Htrue.
    destruct (eq_str project_id default_project_id) eqn:Hd.
    - apply eq_str_spec in Hd. by destruct Hdiff.
    - reflexivity. }
  destruct (recorded_presence_checks fs Hall) as (Hb & Hs & Hc & Hd & Hci).
  destruct (recorded_run_checks_returned rt fs) as [Hret Hrec].
  { unfold checks. repeat (apply List.Forall_cons; [|]); [..|apply List.Forall_nil].
    - by rewrite Henv.
    - by rewrite Hcred.
    - by rewrite Hb.
    - by rewrite Hs.
    - by rewrite Hc.
    - by rewrite Hd.
    - by rewrite Hci. }
  unfold checks in Hrec. cbn [foldr] in Hrec. unfold recorded at 2 3 4 5 6 7 8 in Hrec.
  rewrite Henv, Hcred, Hb, Hs, Hc, Hd, Hci in Hrec.
  cbn [snd record_after errors warnings info stdout init app] in Hrec.
  pose proof encodable_found_lines as Hfound.
  rewrite !map_app, !Forall_app in Hfound.
  destruct Hfound as (Fb & Fs & Fc & Fd & Fci).
  destruct (validate_all_run_returned rt fs Hret) as (final & E & He & Hw & Hi & Hrate).
  { unfold printable, messages. rewrite Hrec.
    cbn [record_after errors warnings info stdout init app].
    rewrite !app_nil_r.
    apply Forall_cons; split; [reflexivity|].
    apply Forall_cons; split; [by rewrite !encodable_app, encodable_str_of_nat|].
    apply Forall_cons; split; [reflexivity|].
    apply Forall_cons; split; [by rewrite encodable_app, Henc|].
    rewrite !Forall_app. done. }
  rewrite (success_rate_same_lists _ final) in Hrate by done.
  rewrite Hrec in E, He, Hw, Hi.
  cbn [record_after errors warnings info stdout init app] in E, He, Hw, Hi.
  assert (Hlen : length (info final) = 21%nat).
  { rewrite Hi. cbn [length]. rewrite ?length_app, ?length_map. reflexivity. }
  assert (Hfinal : success_rate final = 100%float).
  { unfold success_rate, total_checks. rewrite Hlen, He, Hw. vm_compute. reflexivity. }
  rewrite Hfinal in Hrate.
  cbv zeta. unfold main. rewrite E. cbn [fst snd]. done.
Qed.

Lemma C8_configured_project_passes_witness :
  let final := snd (main rt0 (fs_full (py "my-app"))) in
  fst (main rt0 (fs_full (py "my-app"))) = 0%Z
  ∧ errors final = []
  ∧ warnings final = []
  ∧ length (info final) = 21%nat
  ∧ success_rate final = 100%float
  ∧ py "🎯 Success rate: " ++ format_1f rt0 100%float ++ py "%" ∈ stdout final.
Proof.
  apply (C8_configured_project_passes rt0 (fs_full (py "my-app")) good_env good_env_vars
           (py "https://api.example.org/v1?x=1") (py "pk.abc") (py "aalay-student-housing")
           (<[py "project_info" := project_info_of (JStr (py "my-app"))]>
              (<[py "client" := JList []]> ∅))
           (<[py "project_id" := JStr (py "my-app")]> ∅) (JList [])
           (JStr (py "my-app"))).
  - intros file_path Hin. cbn [fs_exists fs_full fs_of]. f_equal.
    apply bool_decide_eq_true_2. exact Hin.
  - reflexivity.
  - vm_compute. reflexivity.
  - vm_compute. reflexivity.
  - vm_compute. reflexivity.
  - vm_compute. reflexivity.
  - decide_by_computation.
  - decide_by_computation.
  - decide_by_computation.
  - decide_by_computation.
  - reflexivity.
  - vm_compute. reflexivity.
  - vm_compute. reflexivity.
  - vm_compute. reflexivity.
  - reflexivity.
  - intros H. vm_compute in H. discriminate H.
  - vm_compute. reflexivity.
Defined.

(** The claim as first stated fails when the project id of the
    credential file is the default one: every listed file exists, the
    three variables have distinct values outside the placeholder set, the
    credential file holds both keys and its project id matches the default
    (and the value of [FIREBASE_PROJECT_ID_PROD]); the run still records
    the "placeholder" warning, and the success rate stays below 100. *)
Lemma C8_counterexample_default_project_id :
  let fs := fs_full default_project_id in
  let final := snd (main rt0 fs) in
  (∀ file_path, file_path ∈ listed_files → fs_exists fs file_path = Ret true)
  ∧ fs_lines fs env_file = (good_env, None)
  ∧ env_lines rt0 ∅ good_env = Ret good_env_vars
  ∧ good_env_vars !! py "API_BASE_URL_PROD" = Some (py "https://api.example.org/v1?x=1")
  ∧ good_env_vars !! py "MAPBOX_ACCESS_TOKEN_PROD" = Some (py "pk.abc")
  ∧ good_env_vars !! py "FIREBASE_PROJECT_ID_PROD" = Some default_project_id
  ∧ Forall (λ value, value ∉ placeholders)
           [py "https://api.example.org/v1?x=1"; py "pk.abc"; default_project_id]
  ∧ NoDup [py "https://api.example.org/v1?x=1"; py "pk.abc"; default_project_id]
  ∧ fs_json fs google_services
    = Ret (credential (project_info_of (JStr default_project_id)))
  ∧ fst (main rt0 fs) = 0%Z
  ∧ errors final = []
  ∧ warnings final = [py "Firebase project_id appears to be a placeholder"]
  ∧ PrimFloat.ltb (success_rate final) 100%float = true.
Proof.
  cbv zeta. split.
  { intros file_path Hin. cbn [fs_exists fs_full fs_of]. f_equal.
    apply bool_decide_eq_true_2. exact Hin. }
  split; [reflexivity|].
  split; [vm_compute; reflexivity|].
  split; [vm_compute; reflexivity|].
  split; [vm_compute; reflexivity|].
  split; [vm_compute; reflexivity|].
  split; [decide_by_computation|].
  split; [decide_by_computation|].
  split; [reflexivity|].
  repeat split; vm_compute; reflexivity.
Qed.

(* ===================================================================== *)
(** ** The presence checks, file by file *)
(* ===================================================================== *)

Lemma found_missing_length fs files :
  (length (found_files fs (answered fs files))
   + length (missing_files fs (answered fs files)))%nat
  = length (answered fs files).
Proof.
  unfold found_files, missing_files.
  induction files as [|p files IH]; cbn [answered]; [done|].
  destruct (fs_exists fs p) as [[|]|e] eqn:E; [| |done];
    cbn [List.filter]; rewrite E; cbn [length]; lia.
Qed.

Lemma answered_length fs files : (length (answered fs files) ≤ length files)%nat.
Proof.
  induction files as [|p files IH]; cbn [answered length]; [done|].
  destruct (fs_exists fs p); cbn [length]; lia.
Qed.

Lemma answered_all fs files :
  first_failure fs files = None → answered fs files = files.
Proof.
  induction files as [|p files IH]; cbn [answered first_failure]; [done|].
  destruct (fs_exists fs p); [|done]. intros H. by rewrite IH.
Qed.

Lemma answers_all fs files :
  exists_answers fs → first_failure fs files = None ∧ answered fs files = files.
Proof.
  intros Hans. assert (H : first_failure fs files = None).
  { induction files as [|p files IH]; cbn [first_failure]; [done|].
    by destruct (Hans p) as [found ->]. }
  split; [done | by apply answered_all].
Qed.

Lemma presence_errors_run fs (prefix : pystr) files : ∀ s,
  for_each files
    (λ file_path,
       found ← lift (fs_exists fs file_path);
       if found : bool then append_info (msg_found file_path)
       else append_error (prefix ++ file_path)) s
  = (match first_failure fs files with
     | None => Ret tt
     | Some e => Raise e
     end,
     {| errors := errors s ++
          map (λ p, prefix ++ p) (missing_files fs (answered fs files));
        warnings := warnings s;
        info := info s ++ map msg_found (found_files fs (answered fs files));
        stdout := stdout s |}).
Proof.
  unfold missing_files, found_files.
  induction files as [|p files IH]; intros s;
    cbn [for_each answered first_failure List.filter map].
  - rewrite !app_nil_r. by destruct s.
  - rewrite !bind_run. unfold lift at 1.
    destruct (fs_exists fs p) as [[|]|e] eqn:E; cbv beta iota.
    + unfold append_info at 1. rewrite IH. cbn [List.filter]. rewrite E.
      cbn [errors warnings info stdout map]. by rewrite <- app_assoc.
    + unfold append_error at 1. rewrite IH. cbn [List.filter]. rewrite E.
      cbn [errors warnings info stdout map]. by rewrite <- app_assoc.
    + cbn [List.filter map]. rewrite !app_nil_r. by destruct s.
Qed.

Lemma presence_warnings_run fs (prefix : pystr) files : ∀ s,
  for_each files
    (λ file_path,
       found ← lift (fs_exists fs file_path);
       if found : bool then append_info (msg_found file_path)
       else append_warning (prefix ++ file_path)) s
  = (match first_failure fs files with
     | None => Ret tt
     | Some e => Raise e
     end,
     {| errors := errors s;
        warnings := warnings s ++
          map (λ p, prefix ++ p) (missing_files fs (answered fs files));
        info := info s ++ map msg_found (found_files fs (answered fs files));
        stdout := stdout s |}).
Proof.
  unfold missing_files, found_files.
  induction files as [|p files IH]; intros s;
    cbn [for_each answered first_failure List.filter map].
  - rewrite !app_nil_r. by destruct s.
  - rewrite !bind_run. unfold lift at 1.
    destruct (fs_exists fs p) as [[|]|e] eqn:E; cbv beta iota.
    + unfold append_info at 1. rewrite IH. cbn [List.filter]. rewrite E.
      cbn [errors warnings info stdout map]. by rewrite <- app_assoc.
    + unfold append_warning at 1. rewrite IH. cbn [List.filter]. rewrite E.
      cbn [errors warnings info stdout map]. by rewrite <- app_assoc.
    + cbn [List.filter map]. rewrite !app_nil_r. by destruct s.
Qed.

(** X1. The build-file and source-file checks ask [Path.exists] for
    their files in the order of the list. For each file answered before
    the first call that raises they record, after what was there, one
    error if the file is missing and one info line if it is found, and
    never a warning. When no call raises the check returns, having
    recorded five messages for the build files and four for the source
    files; when a call raises, its exception leaves the check at that
    file, with the messages of the files before it. *)
Theorem build_and_source_checks_one_message_per_file fs s :
  validate_build_files fs s
  = (match first_failure fs required_files with
     | None => Ret tt
     | Some e => Raise e
     end,
     {| errors := errors s ++
          map (λ p, py "Required build file missing: " ++ p)
              (missing_files fs (answered fs required_files));
        warnings := warnings s;
        info := info s ++ map msg_found (found_files fs (answered fs required_files));
        stdout := stdout s |})
  ∧ validate_source_files fs s
    = (match first_failure fs critical_files with
       | None => Ret tt
       | Some e => Raise e
       end,
       {| errors := errors s ++
            map (λ p, py "Critical source file missing: " ++ p)
                (missing_files fs (answered fs critical_files));
          warnings := warnings s;
          info := info s ++ map msg_found (found_files fs (answered fs critical_files));
          stdout := stdout s |})
  ∧ (∀ files,
       (length (found_files fs (answered fs files))
        + length (missing_files fs (answered fs files)) = length (answered fs files))%nat
       ∧ (length (answered fs files) ≤ length files)%nat
       ∧ (first_failure fs files = None → answered fs files = files))
  ∧ length required_files = 5%nat ∧ length critical_files = 4%nat.
Proof.
  split; [apply presence_errors_run|]. split; [apply presence_errors_run|].
  split; [|done]. intros files.
  split; [apply found_missing_length|]. split; [apply answered_length|].
  apply answered_all.
Qed.

(** X2. The security, documentation and CI checks do the same with
    warnings: for each file answered before the first call of
    [Path.exists] that raises, one warning if the file is missing and
    one info line if it is found, and never an error; four, three and one
    message when no call raises. *)
Theorem optional_file_checks_one_message_per_file fs s :
  validate_security_files fs s
  = (match first_failure fs security_files with
     | None => Ret tt
     | Some e => Raise e
     end,
     {| errors := errors s;
        warnings := warnings s ++
          map (λ p, py "Security file missing: " ++ p)
              (missing_files fs (answered fs security_files));
        info := info s ++ map msg_found (found_files fs (answered fs security_files));
        stdout := stdout s |})
  ∧ validate_documentation fs s
    = (match first_failure fs doc_files with
       | None => Ret tt
       | Some e => Raise e
       end,
       {| errors := errors s;
          warnings := warnings s ++
            map (λ p, py "Documentation file missing: " ++ p)
                (missing_files fs (answered fs doc_files));
          info := info s ++ map msg_found (found_files fs (answered fs doc_files));
          stdout := stdout s |})
  ∧ validate_ci_cd fs s
    = (match first_failure fs ci_files with
       | None => Ret tt
       | Some e => Raise e
       end,
       {| errors := errors s;
          warnings := warnings s ++
            map (λ p, py "CI/CD file missing: " ++ p)
                (missing_files fs (answered fs ci_files));
          info := info s ++ map msg_found (found_files fs (answered fs ci_files));
          stdout := stdout s |})
  ∧ (∀ files,
       (length (found_files fs (answered fs files))
        + length (missing_files fs (answered fs files)) = length (answered fs files))%nat
       ∧ (length (answered fs files) ≤ length files)%nat
       ∧ (first_failure fs files = None → answered fs files = files))
  ∧ length security_files = 4%nat ∧ length doc_files = 3%nat
  ∧ length ci_files = 1%nat.
Proof.
  split; [apply presence_warnings_run|]. split; [apply presence_warnings_run|].
  split; [apply presence_warnings_run|].
  split; [|done]. intros files.
  split; [apply found_missing_length|]. split; [apply answered_length|].
  apply answered_all.
Qed.

(* ===================================================================== *)
(** ** The credential file check, case by case *)
(* ===================================================================== *)

(** X3. Without a credential file the check records exactly one
    warning, whose text says whether the template is there, and neither
    an error nor an info line: unlike a missing env file, a missing
    credential file never blocks the build. (When the test for the
    template itself raises, nothing is recorded and the exception leaves
    the check.) *)
Theorem credential_file_absent_one_warning rt fs s :
  fs_exists fs google_services = Ret false →
  validate_firebase_config rt fs s =
  match fs_exists fs google_services_template with
  | Ret true =>
      (Ret tt,
       {| errors := errors s;
          warnings := warnings s ++
            [py "No google-services.json found. Copy template and configure with your Firebase project."];
          info := info s; stdout := stdout s |})
  | Ret false =>
      (Ret tt,
       {| errors := errors s;
          warnings := warnings s ++ [py "No Firebase configuration found!"];
          info := info s; stdout := stdout s |})
  | Raise e => (Raise e, s)
  end.
Proof.
  intros H. unfold validate_firebase_config. answer_exists H.
  rewrite bind_run. unfold lift.
  by destruct (fs_exists fs google_services_template) as [[|]|e].
Qed.

Lemma credential_file_absent_one_warning_witness :
  validate_firebase_config rt0 fs_empty init =
  (Ret tt,
   {| errors := []; warnings := [py "No Firebase configuration found!"];
      info := []; stdout := [] |}).
Proof. apply (credential_file_absent_one_warning rt0 fs_empty init). reflexivity. Defined.

(** The statements after [json.load] add one info line, or one warning,
    or raise an exception that is not a [JSONDecodeError]; they add no
    error. *)
Lemma py_in_raises rt k config e :
  py_in rt k config = Raise e → ∃ msg, e = Exception msg.
Proof.
  destruct config; unfold py_in, fail; intros H; try discriminate H;
    injection H as <-; by eexists.
Qed.

Lemma subscript_raises rt config k e :
  subscript rt config k = Raise e → ∃ msg, e = Exception msg.
Proof.
  destruct config as [| | | | | |m]; unfold subscript, fail; intros H;
    try (injection H as <-; by eexists).
  destruct (m !! k); [discriminate H|]. injection H as <-; by eexists.
Qed.

Lemma dict_get_raises rt v k d e :
  dict_get rt v k d = Raise e → ∃ msg, e = Exception msg.
Proof.
  destruct v; unfold dict_get, fail; intros H; try discriminate H;
    injection H as <-; by eexists.
Qed.

Lemma check_structure_cases rt config s :
  (∃ msg, check_structure rt config s
          = (Ret tt, {| errors := errors s; warnings := warnings s;
                        info := info s ++ [msg]; stdout := stdout s |}))
  ∨ (∃ msg, check_structure rt config s
            = (Ret tt, {| errors := errors s; warnings := warnings s ++ [msg];
                          info := info s; stdout := stdout s |}))
  ∨ (∃ msg, check_structure rt config s = (Raise (Exception msg), s)).
Proof.
  unfold check_structure, lift. run_binds.
  destruct (py_in rt (py "project_info") config) as [[|]|e] eqn:E1; run_binds.
  - destruct (py_in rt (py "client") config) as [[|]|e] eqn:E2; run_binds.
    + destruct (subscript rt config (py "project_info")) as [v|e] eqn:E3; run_binds.
      * destruct (dict_get rt v (py "project_id") (JStr (py ""))) as [pid|e] eqn:E4;
          run_binds.
        -- destruct (truthy pid && negb (eq_str pid default_project_id));
             [left | right; left]; by eexists.
        -- right; right. apply dict_get_raises in E4 as [msg ->]. by exists msg.
      * right; right. apply subscript_raises in E3 as [msg ->]. by exists msg.
    + right; left. by eexists.
    + right; right. apply py_in_raises in E2 as [msg ->]. by exists msg.
  - right; left. by eexists.
  - right; right. apply py_in_raises in E1 as [msg ->]. by exists msg.
Qed.

(** The check on a credential file that exists: the "found" line, then
    one more message, which is an error only for a [JSONDecodeError]. *)
Lemma validate_firebase_config_present rt fs s :
  fs_exists fs google_services = Ret true →
  let found := info s ++ [py "✓ google-services.json found"] in
  match fs_json fs google_services with
  | Raise (JSONDecodeError _) =>
      validate_firebase_config rt fs s
      = (Ret tt, {| errors := errors s ++ [py "google-services.json is not valid JSON"];
                    warnings := warnings s; info := found; stdout := stdout s |})
  | _ =>
      (∃ msg, validate_firebase_config rt fs s
              = (Ret tt, {| errors := errors s; warnings := warnings s;
                            info := found ++ [msg]; stdout := stdout s |}))
      ∨ (∃ msg, validate_firebase_config rt fs s
                = (Ret tt, {| errors := errors s; warnings := warnings s ++ [msg];
                              info := found; stdout := stdout s |}))
  end.
Proof.
  intros Hex found.
  destruct (fs_json fs google_services) as [config|[msg|msg]] eqn:Hload.
  - rewrite (validate_firebase_config_loaded rt fs config s Hex Hload).
    unfold try_except.
    destruct (check_structure_cases rt config
                {| errors := errors s; warnings := warnings s;
                   info := info s ++ [py "✓ google-services.json found"];
                   stdout := stdout s |}) as [[m ->]|[[m ->]|[m ->]]].
    + left. by exists m.
    + right. by exists m.
    + right. by eexists.
  - unfold validate_firebase_config. answer_exists Hex. rewrite Hload.
    erewrite bind_ret_run by reflexivity. reflexivity.
  - right. unfold validate_firebase_config. answer_exists Hex. rewrite Hload.
    erewrite bind_ret_run by reflexivity. by eexists.
Qed.

(** The check when [Path.exists] answers that the credential file is
    absent, or raises. *)
Lemma validate_firebase_config_absent rt fs s :
  fs_exists fs google_services = Ret false →
  validate_firebase_config rt fs s =
  match fs_exists fs google_services_template with
  | Ret true =>
      (Ret tt,
       {| errors := errors s;
          warnings := warnings s ++
            [py "No google-services.json found. Copy template and configure with your Firebase project."];
          info := info s; stdout := stdout s |})
  | Ret false =>
      (Ret tt,
       {| errors := errors s;
          warnings := warnings s ++ [py "No Firebase configuration found!"];
          info := info s; stdout := stdout s |})
  | Raise e => (Raise e, s)
  end.
Proof.
  intros H. unfold validate_firebase_config. answer_exists H.
  rewrite bind_run. unfold lift.
  by destruct (fs_exists fs google_services_template) as [[|]|e].
Qed.

Lemma validate_firebase_config_raises rt fs s e :
  fs_exists fs google_services = Raise e →
  validate_firebase_config rt fs s = (Raise e, s).
Proof.
  intros H. unfold validate_firebase_config. rewrite bind_run. unfold lift.
  by rewrite H.
Qed.

(** X4. The credential check records an error exactly when
    [Path.exists] answers that the file is there and [json.load] raises
    a [JSONDecodeError]; it never records more than one. It records two
    messages in all when the file is there, one when the file is absent
    and the test for the template answers, and none when a call of
    [Path.exists] raises. *)
Theorem credential_error_iff_invalid_json rt fs :
  let d := recorded (validate_firebase_config rt fs) in
  (errors d ≠ [] ↔
     fs_exists fs google_services = Ret true
     ∧ ∃ msg, fs_json fs google_services = Raise (JSONDecodeError msg))
  ∧ (length (errors d) ≤ 1)%nat
  ∧ total_checks d
    = match fs_exists fs google_services with
      | Ret true => 2%nat
      | Ret false =>
          match fs_exists fs google_services_template with
          | Ret _ => 1%nat
          | Raise _ => 0%nat
          end
      | Raise _ => 0%nat
      end.
Proof.
  cbv zeta. unfold recorded.
  destruct (fs_exists fs google_services) as [[|]|e] eqn:Hex.
  - pose proof (validate_firebase_config_present rt fs init Hex) as H. cbv zeta in H.
    destruct (fs_json fs google_services) as [config|[msg|msg]] eqn:Hload;
      [destruct H as [[m ->]|[m ->]] | rewrite H | destruct H as [[m ->]|[m ->]]];
      cbn [snd errors warnings info init app]; (split; [split|split]);
      first [ by intros E; destruct E
            | by intros [_ [? E]]; discriminate E
            | by intros _; split; [|eexists]
            | by intros _
            | cbn [length]; lia
            | reflexivity ].
  - rewrite (validate_firebase_config_absent rt fs init Hex).
    destruct (fs_exists fs google_services_template) as [[|]|e];
      cbn [snd errors warnings info init app]; (split; [split|split]);
      first [ by intros E; destruct E
            | by intros [E _]; discriminate E
            | cbn [length]; lia
            | reflexivity ].
  - rewrite (validate_firebase_config_raises rt fs init e Hex).
    cbn [snd errors init]. (split; [split|split]);
      first [ by intros E; destruct E
            | by intros [E _]; discriminate E
            | cbn [length]; lia
            | reflexivity ].
Qed.

Lemma existsb_eq_str l k :
  existsb (λ x, eq_str x k) l = true ↔ JStr k ∈ l.
Proof.
  rewrite existsb_exists. split.
  - intros (x & Hin & E). apply eq_str_spec in E as ->. by apply list_elem_of_In.
  - intros Hin. exists (JStr k). split; [by apply list_elem_of_In | by apply eq_str_spec].
Qed.

(** X5. When the credential file is an object with both keys but what
    stands under [project_info] is not an object, [.get] fails and the
    generic handler turns that into one "Could not validate" warning with
    the interpreter's text; nothing is said about the project id and no
    error is recorded. *)
Theorem project_info_not_an_object_warns rt fs s m v client :
  fs_exists fs google_services = Ret true →
  fs_json fs google_services = Ret (JDict m) →
  m !! py "project_info" = Some v →
  (∀ d, v ≠ JDict d) →
  m !! py "client" = Some client →
  validate_firebase_config rt fs s =
  (Ret tt,
   {| errors := errors s;
      warnings := warnings s ++
        [py "Could not validate google-services.json: "
         ++ fault_text rt (NoGetAttribute v)];
      info := info s ++ [py "✓ google-services.json found"];
      stdout := stdout s |}).
Proof.
  intros Hex Hload H1 Hv H2.
  rewrite (validate_firebase_config_loaded rt fs _ s Hex Hload).
  unfold try_except, check_structure, lift, py_in, subscript.
  rewrite H1, H2. rewrite !bool_decide_eq_true_2 by eauto. run_binds.
  destruct v; try reflexivity. by destruct (Hv m0).
Qed.

Lemma project_info_not_an_object_warns_witness :
  let fs := fs_of [google_services] ([], None)
                  (Ret (credential (JStr (py "aalay")))) in
  validate_firebase_config rt0 fs init =
  (Ret tt,
   {| errors := errors init;
      warnings := warnings init ++
        [py "Could not validate google-services.json: "
         ++ fault_text rt0 (NoGetAttribute (JStr (py "aalay")))];
      info := info init ++ [py "✓ google-services.json found"];
      stdout := stdout init |}).
Proof.
  cbv zeta.
  apply (project_info_not_an_object_warns rt0 _ init
           (<[py "project_info" := JStr (py "aalay")]> (<[py "client" := JList []]> ∅))
           (JStr (py "aalay")) (JList [])).
  - reflexivity.
  - reflexivity.
  - vm_compute. reflexivity.
  - intros d H. discriminate H.
  - vm_compute. reflexivity.
Defined.

(** X6. A credential file whose top level is a string containing both
    key names, or an array holding both as elements, passes the two
    [in] tests; the subscript then fails, and the check records one
    "Could not validate" warning, not the "invalid structure" one. *)
Theorem top_level_text_or_array_naming_both_keys rt fs s config :
  fs_exists fs google_services = Ret true →
  fs_json fs google_services = Ret config →
  (∃ str, config = JStr str
          ∧ contains (py "project_info") str = true
          ∧ contains (py "client") str = true)
  ∨ (∃ l, config = JList l
          ∧ JStr (py "project_info") ∈ l ∧ JStr (py "client") ∈ l) →
  validate_firebase_config rt fs s =
  (Ret tt,
   {| errors := errors s;
      warnings := warnings s ++
        [py "Could not validate google-services.json: "
         ++ fault_text rt (BadSubscript config)];
      info := info s ++ [py "✓ google-services.json found"];
      stdout := stdout s |}).
Proof.
  intros Hex Hload Hshape.
  rewrite (validate_firebase_config_loaded rt fs _ s Hex Hload).
  unfold try_except, check_structure, lift, py_in.
  destruct Hshape as [(str & -> & E1 & E2)|(l & -> & E1 & E2)].
  - rewrite E1, E2. run_binds. reflexivity.
  - apply existsb_eq_str in E1, E2. rewrite E1, E2. run_binds. reflexivity.
Qed.

Lemma top_level_text_or_array_naming_both_keys_witness :
  let config := JList [JStr (py "client"); JStr (py "project_info")] in
  let fs := fs_of [google_services] ([], None) (Ret config) in
  validate_firebase_config rt0 fs init =
  (Ret tt,
   {| errors := errors init;
      warnings := warnings init ++
        [py "Could not validate google-services.json: "
         ++ fault_text rt0 (BadSubscript config)];
      info := info init ++ [py "✓ google-services.json found"];
      stdout := stdout init |}).
Proof.
  cbv zeta.
  apply (top_level_text_or_array_naming_both_keys rt0 _ init
           (JList [JStr (py "client"); JStr (py "project_info")])).
  - reflexivity.
  - reflexivity.
  - right. eexists. split; [reflexivity|]. split.
    + apply list_elem_of_In. right. left. reflexivity.
    + apply list_elem_of_In. left. reflexivity.
Defined.

(** X7. A credential file whose top level is [null], a boolean or a
    number cannot be searched for a key: the first [in] test fails, and
    the check records one "Could not validate" warning and no error. *)
Theorem top_level_scalar_warns rt fs s config :
  fs_exists fs google_services = Ret true →
  fs_json fs google_services = Ret config →
  config = JNull ∨ (∃ b, config = JBool b) ∨ (∃ z, config = JInt z)
  ∨ (∃ f, config = JFloat f) →
  validate_firebase_config rt fs s =
  (Ret tt,
   {| errors := errors s;
      warnings := warnings s ++
        [py "Could not validate google-services.json: "
         ++ fault_text rt (NotAContainer config)];
      info := info s ++ [py "✓ google-services.json found"];
      stdout := stdout s |}).
Proof.
  intros Hex Hload Hshape.
  rewrite (validate_firebase_config_loaded rt fs _ s Hex Hload).
  destruct Hshape as [->|[[b ->]|[[z ->]|[f ->]]]]; reflexivity.
Qed.

Lemma top_level_scalar_warns_witness :
  let fs := fs_of [google_services] ([], None) (Ret (JInt 7)) in
  validate_firebase_config rt0 fs init =
  (Ret tt,
   {| errors := errors init;
      warnings := warnings init ++
        [py "Could not validate google-services.json: "
         ++ fault_text rt0 (NotAContainer (JInt 7))];
      info := info init ++ [py "✓ google-services.json found"];
      stdout := stdout init |}).
Proof.
  cbv zeta.
  apply (top_level_scalar_warns rt0 _ init (JInt 7)).
  - reflexivity.
  - reflexivity.
  - right. right. left. by exists 7%Z.
Defined.

(* ===================================================================== *)
(** ** The environment file check, case by case *)
(* ===================================================================== *)

(** The check on an env file whose reading ends with an exception. *)
Lemma validate_env_file_unreadable rt fs lines e s :
  fs_exists fs env_file = Ret true →
  fs_lines fs env_file = (lines, Some e) →
  validate_env_file rt fs s =
  (Ret tt,
   {| errors := errors s ++ [py "Error reading .env file: " ++ str_of_exn e];
      warnings := warnings s;
      info := info s ++ [py "✓ .env file found"];
      stdout := stdout s |}).
Proof.
  intros Hex Hread. unfold validate_env_file, read_env_vars.
  answer_exists Hex. rewrite Hread.
  erewrite bind_ret_run by reflexivity.
  destruct (env_lines_returns rt lines ∅) as [env_vars ->].
  reflexivity.
Qed.

(** The check when [Path.exists] answers that the env file is absent,
    or raises. *)
Lemma validate_env_file_absent rt fs s :
  fs_exists fs env_file = Ret false →
  validate_env_file rt fs s =
  match fs_exists fs env_template with
  | Ret true =>
      (Ret tt,
       {| errors := errors s;
          warnings := warnings s ++
            [py "No .env file found. Copy .env.template to .env and fill in your values."];
          info := info s; stdout := stdout s |})
  | Ret false =>
      (Ret tt,
       {| errors := errors s ++ [py "Neither .env nor .env.template file found!"];
          warnings := warnings s; info := info s; stdout := stdout s |})
  | Raise e => (Raise e, s)
  end.
Proof.
  intros H. unfold validate_env_file. answer_exists H.
  rewrite bind_run. unfold lift.
  by destruct (fs_exists fs env_template) as [[|]|e].
Qed.

Lemma validate_env_file_raises rt fs s e :
  fs_exists fs env_file = Raise e →
  validate_env_file rt fs s = (Raise e, s).
Proof.
  intros H. unfold validate_env_file. rewrite bind_run. unfold lift.
  by rewrite H.
Qed.

Lemma var_warnings_length env_vars var : (length (var_warnings env_vars var) ≤ 1)%nat.
Proof.
  rewrite var_warnings_cases. destruct (env_vars !! var) as [value|]; [|done].
  destruct (bool_decide (value ∈ placeholders)); cbn; lia.
Qed.

(** X8. The env check records an error exactly when neither the env
    file nor its template exists, or when the env file exists and its
    reading ends with an exception, at whatever line; it never records
    more than one, and in the second case it records no warning: the
    variables read before the exception are not looked at. *)
Theorem env_error_iff_absent_or_unreadable rt fs :
  let d := recorded (validate_env_file rt fs) in
  (errors d ≠ [] ↔
     (fs_exists fs env_file = Ret false ∧ fs_exists fs env_template = Ret false)
     ∨ (fs_exists fs env_file = Ret true ∧ ∃ e, snd (fs_lines fs env_file) = Some e))
  ∧ (length (errors d) ≤ 1)%nat
  ∧ (∀ e, fs_exists fs env_file = Ret true → snd (fs_lines fs env_file) = Some e →
       errors d = [py "Error reading .env file: " ++ str_of_exn e]
       ∧ warnings d = []).
Proof.
  cbv zeta. unfold recorded.
  destruct (fs_exists fs env_file) as [[|]|e0] eqn:Hex.
  - destruct (fs_lines fs env_file) as [lines [e|]] eqn:Hread; cbn [snd].
    + rewrite (validate_env_file_unreadable rt fs lines e init Hex Hread). cbn [snd].
      split; [split|split].
      * intros _. right. split; [done | by exists e].
      * by intros _.
      * cbn; lia.
      * by intros e' _ [= <-].
    + destruct (env_lines_returns rt lines ∅) as [env_vars Hrun].
      rewrite (validate_env_file_readable rt fs lines env_vars init Hex Hread Hrun).
      cbn [snd errors init]. split; [split|split].
      * by intros E.
      * intros [[E _]|[_ [e E]]]; discriminate E.
      * cbn; lia.
      * intros e _ E. discriminate E.
  - rewrite (validate_env_file_absent rt fs init Hex).
    destruct (fs_exists fs env_template) as [[|]|e];
      cbn [snd errors init app]; (split; [split|split]);
      first [ by intros E; destruct E
            | by intros [[_ E]|[E _]]; discriminate E
            | by intros _; left
            | by intros _
            | cbn [length]; lia
            | by intros e1 E; discriminate E ].
  - rewrite (validate_env_file_raises rt fs init e0 Hex).
    cbn [snd errors init]. (split; [split|split]);
      first [ by intros E; destruct E
            | by intros [[E _]|[E _]]; discriminate E
            | cbn [length]; lia
            | by intros e1 E; discriminate E ].
Qed.

(** Each line adds at most one key. *)
Lemma env_lines_size rt lines : ∀ (env_vars0 env_vars : gmap pystr pystr),
  env_lines rt env_vars0 lines = Ret env_vars →
  (size env_vars ≤ size env_vars0 + length lines)%nat.
Proof.
  induction lines as [|line rest IH]; intros m0 m; cbn [env_lines length].
  - intros [= <-]. lia.
  - destruct (env_line_run rt m0 line) as [(k & v & _ & ->)|[_ ->]]; intros Hrun.
    + apply IH in Hrun. pose proof (map_size_insert k v m0) as Hsize.
      destruct (m0 !! k); unfold id in Hsize; lia.
    + apply IH in Hrun. lia.
Qed.

(** X9. The number the env check reports in "Found N environment
    variables" is the number of distinct keys of the map, and it never
    exceeds the number of lines of the file. *)
Theorem env_variable_count_at_most_lines rt fs lines s :
  fs_exists fs env_file = Ret true →
  fs_lines fs env_file = (lines, None) →
  ∃ env_vars : gmap pystr pystr,
    env_lines rt ∅ lines = Ret env_vars
    ∧ last (info (snd (validate_env_file rt fs s)))
      = Some (py "✓ Found " ++ str_of_nat (size env_vars) ++ py " environment variables")
    ∧ size env_vars = size (dom env_vars)
    ∧ (size env_vars ≤ length lines)%nat.
Proof.
  intros Hex Hread.
  destruct (env_lines_returns rt lines ∅) as [env_vars Hrun].
  exists env_vars. split; [done|].
  rewrite (validate_env_file_readable rt fs lines env_vars s Hex Hread Hrun).
  cbn [snd info]. split; [|split].
  - change [py "✓ .env file found";
            py "✓ Found " ++ str_of_nat (size env_vars) ++ py " environment variables"]
      with ([py "✓ .env file found"]
            ++ [py "✓ Found " ++ str_of_nat (size env_vars) ++ py " environment variables"]).
    by rewrite app_assoc, last_snoc.
  - by rewrite size_dom.
  - apply env_lines_size in Hrun. rewrite map_size_empty in Hrun. lia.
Qed.

Lemma env_variable_count_at_most_lines_witness :
  ∃ env_vars : gmap pystr pystr,
    env_lines rt0 ∅ good_env = Ret env_vars
    ∧ last (info (snd (validate_env_file rt0 (fs_full (py "my-app")) init)))
      = Some (py "✓ Found " ++ str_of_nat (size env_vars) ++ py " environment variables")
    ∧ size env_vars = size (dom env_vars)
    ∧ (size env_vars ≤ length good_env)%nat.
Proof.
  apply (env_variable_count_at_most_lines rt0 (fs_full (py "my-app")) good_env init);
    reflexivity.
Defined.

(* ===================================================================== *)
(** ** Stripping, and what the keys and values of the map look like *)
(* ===================================================================== *)

Arguments is_space c : simpl never.

Lemma lstrip_nonspace c t : is_space c = false → lstrip (c :: t) = c :: t.
Proof. intros H. cbn [lstrip]. by rewrite H. Qed.

Lemma lstrip_cases s :
  lstrip s = [] ∨ ∃ c t, lstrip s = c :: t ∧ is_space c = false.
Proof.
  induction s as [|c s IH]; [by left|]. cbn [lstrip].
  destruct (is_space c) eqn:E; [exact IH|]. right. by exists c, s.
Qed.

Lemma lstrip_app a b :
  lstrip (a ++ b) = match lstrip a with [] => lstrip b | _ :: _ => lstrip a ++ b end.
Proof.
  induction a as [|c a IH]; [done|]. cbn [app lstrip].
  destruct (is_space c); [exact IH | done].
Qed.

Lemma lstrip_idem s : lstrip (lstrip s) = lstrip s.
Proof.
  destruct (lstrip_cases s) as [->|(c & t & -> & E)]; [done|].
  by apply lstrip_nonspace.
Qed.

Lemma elem_of_lstrip x s : x ∈ lstrip s → x ∈ s.
Proof.
  induction s as [|c s IH]; [done|]. cbn [lstrip].
  destruct (is_space c); [|done]. intros H. right. by apply IH.
Qed.

Lemma rstrip_app a b :
  rstrip (a ++ b) = match rstrip b with [] => rstrip a | _ :: _ => a ++ rstrip b end.
Proof.
  unfold rstrip. rewrite rev_app_distr, lstrip_app.
  destruct (lstrip (rev b)) as [|c t] eqn:E; [done|].
  rewrite rev_app_distr, rev_involutive.
  destruct (rev (c :: t)) eqn:E'; [|done].
  apply (f_equal (@length N)) in E'. rewrite length_rev in E'. discriminate E'.
Qed.

Lemma rstrip_cons_nonspace c l : is_space c = false → rstrip (c :: l) = c :: rstrip l.
Proof.
  intros H. change (c :: l) with ([c] ++ l). rewrite rstrip_app.
  destruct (rstrip l); [|done]. unfold rstrip. cbn [rev app lstrip]. by rewrite H.
Qed.

Lemma rstrip_idem s : rstrip (rstrip s) = rstrip s.
Proof. unfold rstrip. by rewrite rev_involutive, lstrip_idem. Qed.

Lemma elem_of_rstrip x s : x ∈ rstrip s → x ∈ s.
Proof.
  unfold rstrip. rewrite !list_elem_of_In, <- in_rev, <- !list_elem_of_In.
  intros H%elem_of_lstrip. by rewrite list_elem_of_In, <- in_rev, <- list_elem_of_In in H.
Qed.

(** A stripped text is empty or starts with a code point that is not
    white space. *)
Lemma strip_cases s :
  strip s = [] ∨ ∃ c t, strip s = c :: t ∧ is_space c = false.
Proof.
  unfold strip. destruct (lstrip_cases s) as [->|(c & t & -> & E)]; [by left|].
  right. exists c, (rstrip t). split; [by apply rstrip_cons_nonspace | done].
Qed.

Lemma strip_idem s : strip (strip s) = strip s.
Proof.
  destruct (strip_cases s) as [->|(c & t & E & Hc)]; [done|].
  unfold strip at 1. rewrite E, (lstrip_nonspace c t Hc), <- E.
  unfold strip. apply rstrip_idem.
Qed.

Lemma elem_of_strip x s : x ∈ strip s → x ∈ s.
Proof. unfold strip. intros H%elem_of_rstrip. by apply elem_of_lstrip. Qed.

(** The head of a text that starts without white space survives
    stripping. *)
Lemma strip_cons_nonspace c t :
  is_space c = false → strip (c :: t) = c :: rstrip t.
Proof.
  intros H. unfold strip. rewrite (lstrip_nonspace c t H).
  by apply rstrip_cons_nonspace.
Qed.

Lemma contains_single_false c s : contains [c] s = false ↔ c ∉ s.
Proof.
  rewrite <- contains_single. by destruct (contains [c] s).
Qed.

(** What a line can stand for: a key that is stripped, holds no [=] and
    does not start with [#], and a value that is stripped. *)
Lemma line_entry_clean line key value :
  line_entry line key value →
  strip key = key ∧ strip value = value
  ∧ contains (py "=") key = false ∧ startswith key (py "#") = false.
Proof.
  intros (Hne & Hhash & before & after & E & Hnot & -> & ->).
  change (py "#") with [35] in *. change (py "=") with [61] in *.
  split; [apply strip_idem|]. split; [apply strip_idem|]. split.
  - apply contains_single_false. intros H%elem_of_strip. by destruct Hnot.
  - destruct (startswith (strip before) [35]) eqn:Hs; [|done].
    apply startswith_single in Hs as [rest Hs].
    destruct before as [|c before]; [discriminate Hs|].
    destruct (strip_cases line) as [E0|(c0 & t0 & E0 & Hc0)]; rewrite E0 in E;
      [discriminate E|].
    cbn [app] in E. injection E as -> E.
    rewrite (strip_cons_nonspace c before Hc0) in Hs. injection Hs as -> _.
    destruct (Hhash t0). by rewrite E0.
Qed.

(** X10. Whatever the lines of the env file, every key of the map the
    loop builds is stripped of surrounding white space, holds no [=] and
    does not start with [#], and every value is stripped; a value may
    hold [=], and a key may be empty. *)
Theorem env_keys_and_values_are_clean (rt : runtime) (lines : list pystr)
    (env_vars : gmap pystr pystr) (key value : pystr) :
  env_lines rt ∅ lines = Ret env_vars →
  env_vars !! key = Some value →
  strip key = key ∧ strip value = value
  ∧ contains (py "=") key = false ∧ startswith key (py "#") = false.
Proof.
  intros Hrun Hlook.
  destruct (env_lines_run rt lines ∅) as (m & Hrun' & Hm).
  rewrite Hrun in Hrun'. injection Hrun' as <-.
  apply Hm in Hlook as [(i & line & _ & Hent & _)|[Hlook _]].
  - by apply (line_entry_clean line).
  - by rewrite lookup_empty in Hlook.
Qed.

Lemma env_keys_and_values_are_clean_witness :
  strip (py "URL") = py "URL"
  ∧ strip (py "http://h/?x=1&y=2") = py "http://h/?x=1&y=2"
  ∧ contains (py "=") (py "URL") = false ∧ startswith (py "URL") (py "#") = false.
Proof.
  apply (env_keys_and_values_are_clean rt0
           [py "A=1" ++ nl; py " URL = http://h/?x=1&y=2 " ++ nl; py "=empty key" ++ nl]
           (<[py "" := py "empty key"]>
              (<[py "URL" := py "http://h/?x=1&y=2"]> (<[py "A" := py "1"]> ∅)))
           (py "URL") (py "http://h/?x=1&y=2")).
  - vm_compute. reflexivity.
  - vm_compute. reflexivity.
Defined.

(* ===================================================================== *)
(** ** Writing a line and reading it back *)
(* ===================================================================== *)

Lemma stripped_lstrip s : strip s = s → lstrip s = s.
Proof.
  intros E. destruct (strip_cases s) as [E0|(c & t & E0 & Hc)]; rewrite E in E0.
  - by rewrite E0.
  - rewrite E0. by apply lstrip_nonspace.
Qed.









(* ===================================================================== *)
(** ** What blocks a build *)
(* ===================================================================== *)

Lemma recorded_env_errors rt fs :
  errors (recorded (validate_env_file rt fs)) =
  match fs_exists fs env_file with
  | Ret true =>
      match snd (fs_lines fs env_file) with
      | Some e => [py "Error reading .env file: " ++ str_of_exn e]
      | None => []
      end
  | Ret false =>
      match fs_exists fs env_template with
      | Ret false => [py "Neither .env nor .env.template file found!"]
      | _ => []
      end
  | Raise _ => []
  end.
Proof.
  unfold recorded. destruct (fs_exists fs env_file) as [[|]|e0] eqn:Hex.
  - destruct (fs_lines fs env_file) as [lines [e|]] eqn:Hread; cbn [snd].
    + by rewrite (validate_env_file_unreadable rt fs lines e init Hex Hread).
    + destruct (env_lines_returns rt lines ∅) as [env_vars Hrun].
      by rewrite (validate_env_file_readable rt fs lines env_vars init Hex Hread Hrun).
  - rewrite (validate_env_file_absent rt fs init Hex).
    by destruct (fs_exists fs env_template) as [[|]|e].
  - by rewrite (validate_env_file_raises rt fs init e0 Hex).
Qed.

Lemma recorded_credential_errors rt fs :
  errors (recorded (validate_firebase_config rt fs)) =
  match fs_exists fs google_services with
  | Ret true =>
      match fs_json fs google_services with
      | Raise (JSONDecodeError _) => [py "google-services.json is not valid JSON"]
      | _ => []
      end
  | _ => []
  end.
Proof.
  unfold recorded. destruct (fs_exists fs google_services) as [[|]|e0] eqn:Hex.
  - pose proof (validate_firebase_config_present rt fs init Hex) as H. cbv zeta in H.
    destruct (fs_json fs google_services) as [config|[msg|msg]];
      [destruct H as [[m ->]|[m ->]] | rewrite H | destruct H as [[m ->]|[m ->]]];
      reflexivity.
  - rewrite (validate_firebase_config_absent rt fs init Hex).
    by destruct (fs_exists fs google_services_template) as [[|]|e].
  - by rewrite (validate_firebase_config_raises rt fs init e0 Hex).
Qed.

Lemma missing_files_nonempty fs files :
  missing_files fs files ≠ [] ↔ ∃ p, p ∈ files ∧ fs_exists fs p = Ret false.
Proof.
  unfold missing_files. induction files as [|p files IH]; cbn [List.filter].
  - split; [done | by intros (p & Hp%elem_of_nil & _)].
  - destruct (fs_exists fs p) as [[|]|e] eqn:E.
    + rewrite IH. split.
      * intros (q & Hq & Eq). exists q. split; [by right | done].
      * intros (q & [->|Hq]%elem_of_cons & Eq); [congruence|]. by exists q.
    + split; [|done]. intros _. exists p. split; [by left | done].
    + rewrite IH. split.
      * intros (q & Hq & Eq). exists q. split; [by right | done].
      * intros (q & [->|Hq]%elem_of_cons & Eq); [congruence|]. by exists q.
Qed.

Lemma app_nonempty {A} (l1 l2 : list A) : l1 ++ l2 ≠ [] ↔ l1 ≠ [] ∨ l2 ≠ [].
Proof.
  destruct l1; cbn.
  - split; [by right | by intros [?|?]].
  - split; [by left | done].
Qed.

Lemma map_nonempty {A B} (f : A → B) (l : list A) : map f l ≠ [] ↔ l ≠ [].
Proof. by destruct l. Qed.

(** What the five presence checks record when every [Path.exists]
    answers. *)
Lemma recorded_presence fs :
  exists_answers fs →
  recorded (validate_build_files fs)
  = {| errors := map (λ p, py "Required build file missing: " ++ p)
                     (missing_files fs required_files);
       warnings := []; info := map msg_found (found_files fs required_files);
       stdout := [] |}
  ∧ recorded (validate_security_files fs)
    = {| errors := [];
         warnings := map (λ p, py "Security file missing: " ++ p)
                         (missing_files fs security_files);
         info := map msg_found (found_files fs security_files); stdout := [] |}
  ∧ recorded (validate_source_files fs)
    = {| errors := map (λ p, py "Critical source file missing: " ++ p)
                       (missing_files fs critical_files);
         warnings := []; info := map msg_found (found_files fs critical_files);
         stdout := [] |}
  ∧ recorded (validate_documentation fs)
    = {| errors := [];
         warnings := map (λ p, py "Documentation file missing: " ++ p)
                         (missing_files fs doc_files);
         info := map msg_found (found_files fs doc_files); stdout := [] |}
  ∧ recorded (validate_ci_cd fs)
    = {| errors := [];
         warnings := map (λ p, py "CI/CD file missing: " ++ p)
                         (missing_files fs ci_files);
         info := map msg_found (found_files fs ci_files); stdout := [] |}.
Proof.
  intros Hans.
  unfold recorded, validate_build_files, validate_security_files,
    validate_source_files, validate_documentation, validate_ci_cd.
  rewrite !presence_errors_run, !presence_warnings_run.
  rewrite !(proj2 (answers_all fs _ Hans)). done.
Qed.

Lemma recorded_run_checks_unfolded rt fs :
  exists_answers fs →
  recorded (run_checks rt fs) =
  record_after (recorded (validate_env_file rt fs))
    (record_after (recorded (validate_firebase_config rt fs))
       (record_after (recorded (validate_build_files fs))
          (record_after (recorded (validate_security_files fs))
             (record_after (recorded (validate_source_files fs))
                (record_after (recorded (validate_documentation fs))
                   (recorded (validate_ci_cd fs))))))).
Proof.
  intros Hans. rewrite recorded_run_checks by done. unfold checks. cbn [foldr].
  by rewrite record_after_init_r.
Qed.

(** The error list of a whole run, check by check. *)
Lemma recorded_run_checks_errors rt fs :
  exists_answers fs →
  errors (recorded (run_checks rt fs)) =
  errors (recorded (validate_env_file rt fs))
  ++ errors (recorded (validate_firebase_config rt fs))
  ++ map (λ p, py "Required build file missing: " ++ p) (missing_files fs required_files)
  ++ map (λ p, py "Critical source file missing: " ++ p) (missing_files fs critical_files).
Proof.
  intros Hans. rewrite recorded_run_checks_unfolded by done.
  destruct (recorded_presence fs Hans) as (-> & -> & -> & -> & ->).
  cbn [record_after errors app]. by rewrite !app_nil_r.
Qed.

(** X13. In a run that no exception leaves (every [Path.exists]
    answers and every recorded message can be printed), the error list
    is, in this order: the error of the env check, the error of the
    credential check, one error per missing build file and one per
    missing source file. Hence the exit status of such a run is 1
    exactly when the env file and its template are both absent, or the
    env file cannot be read to its end, or the credential file is not
    valid JSON, or a build file or a source file is missing; missing
    security, documentation or CI files, placeholder values and a missing
    credential file do not change it. *)
Theorem exit_status_one_iff_blocking_condition rt fs :
  exists_answers fs →
  printable (recorded (run_checks rt fs)) →
  let final := snd (main rt fs) in
  errors final =
    match fs_exists fs env_file with
    | Ret true =>
        match snd (fs_lines fs env_file) with
        | Some e => [py "Error reading .env file: " ++ str_of_exn e]
        | None => []
        end
    | Ret false =>
        match fs_exists fs env_template with
        | Ret false => [py "Neither .env nor .env.template file found!"]
        | _ => []
        end
    | Raise _ => []
    end
    ++ match fs_exists fs google_services with
       | Ret true =>
           match fs_json fs google_services with
           | Raise (JSONDecodeError _) => [py "google-services.json is not valid JSON"]
           | _ => []
           end
       | _ => []
       end
    ++ map (λ p, py "Required build file missing: " ++ p)
           (missing_files fs required_files)
    ++ map (λ p, py "Critical source file missing: " ++ p)
           (missing_files fs critical_files)
  ∧ (fst (main rt fs) = 1%Z ↔
       (fs_exists fs env_file = Ret false ∧ fs_exists fs env_template = Ret false)
       ∨ (fs_exists fs env_file = Ret true ∧ ∃ e, snd (fs_lines fs env_file) = Some e)
       ∨ (fs_exists fs google_services = Ret true
          ∧ ∃ msg, fs_json fs google_services = Raise (JSONDecodeError msg))
       ∨ (∃ p, p ∈ required_files ∧ fs_exists fs p = Ret false)
       ∨ (∃ p, p ∈ critical_files ∧ fs_exists fs p = Ret false)).
Proof.
  intros Hans Hd. cbv zeta. unfold main.
  destruct (validate_all_run rt fs Hans Hd) as (final & E & He & _).
  rewrite E. cbn [fst snd]. rewrite He, recorded_run_checks_errors by done.
  rewrite recorded_env_errors, recorded_credential_errors.
  split; [done|].
  match goal with
  | |- (if match ?l with [] => true | _ :: _ => false end then _ else _) = _ ↔ _ =>
      transitivity (l ≠ []); [by destruct l|]
  end.
  rewrite !app_nonempty, !map_nonempty, !missing_files_nonempty.
  assert (HE : match fs_exists fs env_file with
               | Ret true =>
                   match snd (fs_lines fs env_file) with
                   | Some e => [py "Error reading .env file: " ++ str_of_exn e]
                   | None => []
                   end
               | Ret false =>
                   match fs_exists fs env_template with
                   | Ret false => [py "Neither .env nor .env.template file found!"]
                   | _ => []
                   end
               | Raise _ => []
               end ≠ []
               ↔ (fs_exists fs env_file = Ret false
                  ∧ fs_exists fs env_template = Ret false)
                 ∨ (fs_exists fs env_file = Ret true
                    ∧ ∃ e, snd (fs_lines fs env_file) = Some e)).
  { destruct (fs_exists fs env_file) as [[|]|e0].
    - destruct (snd (fs_lines fs env_file)) as [e|]; split.
      + intros _. right. split; [done | by exists e].
      + done.
      + intros H. by destruct H.
      + intros [[H _]|[_ [e H]]]; discriminate H.
    - destruct (fs_exists fs env_template) as [[|]|e]; split.
      + intros H. by destruct H.
      + intros [[_ H]|[H _]]; discriminate H.
      + intros _. by left.
      + done.
      + intros H. by destruct H.
      + intros [[_ H]|[H _]]; discriminate H.
    - split; [intros H; by destruct H | intros [[H _]|[H _]]; discriminate H]. }
  assert (HC : match fs_exists fs google_services with
               | Ret true =>
                   match fs_json fs google_services with
                   | Raise (JSONDecodeError _) =>
                       [py "google-services.json is not valid JSON"]
                   | _ => []
                   end
               | _ => []
               end ≠ []
               ↔ fs_exists fs google_services = Ret true
                 ∧ ∃ msg, fs_json fs google_services = Raise (JSONDecodeError msg)).
  { destruct (fs_exists fs google_services) as [[|]|e0].
    - destruct (fs_json fs google_services) as [config|[msg|msg]]; split.
      + intros H. by destruct H.
      + intros [_ [msg H]]; discriminate H.
      + intros _. split; [done | by exists msg].
      + done.
      + intros H. by destruct H.
      + intros [_ [msg' H]]; discriminate H.
    - split; [intros H; by destruct H | intros [H _]; discriminate H].
    - split; [intros H; by destruct H | intros [H _]; discriminate H]. }
  rewrite HE, HC. clear. generalize required_files critical_files. intros. tauto.
Qed.

Lemma exit_status_one_iff_blocking_condition_witness :
  fst (main rt0 fs_empty) = 1%Z ↔
    (fs_exists fs_empty env_file = Ret false
     ∧ fs_exists fs_empty env_template = Ret false)
    ∨ (fs_exists fs_empty env_file = Ret true
       ∧ ∃ e, snd (fs_lines fs_empty env_file) = Some e)
    ∨ (fs_exists fs_empty google_services = Ret true
       ∧ ∃ msg, fs_json fs_empty google_services = Raise (JSONDecodeError msg))
    ∨ (∃ p, p ∈ required_files ∧ fs_exists fs_empty p = Ret false)
    ∨ (∃ p, p ∈ critical_files ∧ fs_exists fs_empty p = Ret false).
Proof.
  apply (exit_status_one_iff_blocking_condition rt0 fs_empty).
  - intros file_path. eexists. reflexivity.
  - decide_by_computation.
Defined.

(* ===================================================================== *)
(** ** Whole runs *)
(* ===================================================================== *)

Lemma snd_main rt fs : snd (main rt fs) = snd (validate_all rt fs init).
Proof. unfold main. by destruct (validate_all rt fs init) as [[[|]|e] s]. Qed.

Lemma all_absent_files fs files :
  (∀ p, fs_exists fs p = Ret false) →
  missing_files fs files = files ∧ found_files fs files = [].
Proof.
  intros Hall. unfold missing_files, found_files.
  induction files as [|p files [IH1 IH2]]; [done|]. cbn [List.filter].
  rewrite (Hall p). by rewrite IH1, IH2.
Qed.

(** X14. In a directory where none of the files exists, the run ends
    with status 1 and records ten errors (the env error, then the five
    build files and the four source files), nine warnings (the
    credential warning, then the four security files, the three
    documents and the CI file), no info line, and a success rate of
    zero. *)
Theorem empty_directory_run rt fs :
  (∀ file_path, fs_exists fs file_path = Ret false) →
  let final := snd (main rt fs) in
  fst (main rt fs) = 1%Z
  ∧ errors final
    = py "Neither .env nor .env.template file found!"
      :: map (λ p, py "Required build file missing: " ++ p) required_files
      ++ map (λ p, py "Critical source file missing: " ++ p) critical_files
  ∧ warnings final
    = py "No Firebase configuration found!"
      :: map (λ p, py "Security file missing: " ++ p) security_files
      ++ map (λ p, py "Documentation file missing: " ++ p) doc_files
      ++ map (λ p, py "CI/CD file missing: " ++ p) ci_files
  ∧ info final = []
  ∧ success_rate final = 0%float.
Proof.
  intros Hall.
  assert (Hans : exists_answers fs) by (intros p; by exists false).
  assert (Henv : recorded (validate_env_file rt fs)
                 = {| errors := [py "Neither .env nor .env.template file found!"];
                      warnings := []; info := []; stdout := [] |}).
  { unfold recorded. rewrite (validate_env_file_absent rt fs init (Hall _)).
    by rewrite (Hall env_template). }
  assert (Hcred : recorded (validate_firebase_config rt fs)
                  = {| errors := []; warnings := [py "No Firebase configuration found!"];
                       info := []; stdout := [] |}).
  { unfold recorded. rewrite (validate_firebase_config_absent rt fs init (Hall _)).
    by rewrite (Hall google_services_template). }
  destruct (recorded_presence fs Hans) as (Hb & Hs & Hc & Hd & Hci).
  assert (Hrec : recorded (run_checks rt fs)
                 = {| errors :=
                        py "Neither .env nor .env.template file found!"
                        :: map (λ p, py "Required build file missing: " ++ p)
                               required_files
                        ++ map (λ p, py "Critical source file missing: " ++ p)
                               critical_files;
                      warnings :=
                        py "No Firebase configuration found!"
                        :: map (λ p, py "Security file missing: " ++ p) security_files
                        ++ map (λ p, py "Documentation file missing: " ++ p) doc_files
                        ++ map (λ p, py "CI/CD file missing: " ++ p) ci_files;
                      info := []; stdout := [] |}).
  { rewrite recorded_run_checks_unfolded, Henv, Hcred, Hb, Hs, Hc, Hd, Hci by done.
    rewrite !(proj1 (all_absent_files fs _ Hall)), !(proj2 (all_absent_files fs _ Hall)).
    cbn [record_after errors warnings info stdout app map].
    by rewrite ?app_nil_r. }
  destruct (validate_all_run rt fs Hans) as (final & E & He & Hw & Hi & _).
  { rewrite Hrec. decide_by_computation. }
  rewrite Hrec in E, He, Hw, Hi. cbn [errors warnings info] in E, He, Hw, Hi.
  cbv zeta. unfold main. rewrite E. cbn [fst snd].
  split; [done|]. split; [done|]. split; [done|]. split; [done|].
  unfold success_rate, total_checks. rewrite He, Hw, Hi.
  cbn [length]. rewrite !length_app, !length_map. vm_compute. reflexivity.
Qed.

Lemma empty_directory_run_witness :
  let final := snd (main rt0 fs_empty) in
  fst (main rt0 fs_empty) = 1%Z
  ∧ errors final
    = py "Neither .env nor .env.template file found!"
      :: map (λ p, py "Required build file missing: " ++ p) required_files
      ++ map (λ p, py "Critical source file missing: " ++ p) critical_files
  ∧ warnings final
    = py "No Firebase configuration found!"
      :: map (λ p, py "Security file missing: " ++ p) security_files
      ++ map (λ p, py "Documentation file missing: " ++ p) doc_files
      ++ map (λ p, py "CI/CD file missing: " ++ p) ci_files
  ∧ info final = []
  ∧ success_rate final = 0%float.
Proof.
  apply (empty_directory_run rt0 fs_empty). intros file_path. reflexivity.
Defined.

Lemma total_checks_record_after a b :
  total_checks (record_after a b) = (total_checks a + total_checks b)%nat.
Proof.
  unfold total_checks, record_after. cbn [errors warnings info].
  rewrite !length_app. lia.
Qed.

Lemma total_checks_env rt fs :
  exists_answers fs →
  (1 ≤ total_checks (recorded (validate_env_file rt fs)) ≤ 5)%nat.
Proof.
  intros Hans. unfold recorded.
  destruct (Hans env_file) as [[|] Hex].
  - destruct (fs_lines fs env_file) as [lines [e|]] eqn:Hread.
    + rewrite (validate_env_file_unreadable rt fs lines e init Hex Hread).
      unfold total_checks. cbn. lia.
    + destruct (env_lines_returns rt lines ∅) as [env_vars Hrun].
      rewrite (validate_env_file_readable rt fs lines env_vars init Hex Hread Hrun).
      unfold total_checks, required_vars.
      cbn [snd errors warnings info init app map concat length].
      rewrite !length_app.
      pose proof (var_warnings_length env_vars (py "API_BASE_URL_PROD")).
      pose proof (var_warnings_length env_vars (py "MAPBOX_ACCESS_TOKEN_PROD")).
      pose proof (var_warnings_length env_vars (py "FIREBASE_PROJECT_ID_PROD")).
      cbn [length]. lia.
  - rewrite (validate_env_file_absent rt fs init Hex).
    destruct (Hans env_template) as [[|] ->]; unfold total_checks; cbn; lia.
Qed.

Lemma total_checks_credential rt fs :
  exists_answers fs →
  (1 ≤ total_checks (recorded (validate_firebase_config rt fs)) ≤ 2)%nat.
Proof.
  intros Hans. unfold recorded.
  destruct (Hans google_services) as [[|] Hex].
  - pose proof (validate_firebase_config_present rt fs init Hex) as H. cbv zeta in H.
    destruct (fs_json fs google_services) as [config|[msg|msg]];
      [destruct H as [[m ->]|[m ->]] | rewrite H | destruct H as [[m ->]|[m ->]]];
      unfold total_checks; cbn [snd errors warnings info init app length]; lia.
  - rewrite (validate_firebase_config_absent rt fs init Hex).
    destruct (Hans google_services_template) as [[|] ->]; unfold total_checks; cbn; lia.
Qed.

Lemma found_missing_all fs files :
  exists_answers fs →
  (length (found_files fs files) + length (missing_files fs files))%nat = length files.
Proof.
  intros Hans. pose proof (found_missing_length fs files) as H.
  by rewrite (proj2 (answers_all fs files Hans)) in H.
Qed.

Lemma total_checks_presence fs :
  exists_answers fs →
  total_checks (recorded (validate_build_files fs)) = 5%nat
  ∧ total_checks (recorded (validate_security_files fs)) = 4%nat
  ∧ total_checks (recorded (validate_source_files fs)) = 4%nat
  ∧ total_checks (recorded (validate_documentation fs)) = 3%nat
  ∧ total_checks (recorded (validate_ci_cd fs)) = 1%nat.
Proof.
  intros Hans. destruct (recorded_presence fs Hans) as (-> & -> & -> & -> & ->).
  unfold total_checks. cbn [errors warnings info length]. rewrite !length_map.
  pose proof (found_missing_all fs required_files Hans).
  pose proof (found_missing_all fs security_files Hans).
  pose proof (found_missing_all fs critical_files Hans).
  pose proof (found_missing_all fs doc_files Hans).
  pose proof (found_missing_all fs ci_files Hans).
  change (length required_files) with 5%nat in *.
  change (length security_files) with 4%nat in *.
  change (length critical_files) with 4%nat in *.
  change (length doc_files) with 3%nat in *.
  change (length ci_files) with 1%nat in *.
  lia.
Qed.

(** X15. Every run in which [Path.exists] answers each time records
    between 19 and 24 messages in all, whether or not the report can
    then be printed: one for each of the 17 listed build, security,
    source, documentation and CI files, one to five for the env check
    and one or two for the credential check. In such a run the total is
    not zero, the guard of the success rate is not taken, and the rate
    is the quotient of the info count by the total, times 100. *)
Theorem run_records_between_19_and_24_messages rt fs :
  exists_answers fs →
  let final := snd (main rt fs) in
  (19 ≤ total_checks final ≤ 24)%nat
  ∧ success_rate final
    = (float_of_len (length (info final)) / float_of_len (total_checks final) * 100)%float.
Proof.
  intros Hans. cbv zeta. rewrite snd_main.
  destruct (validate_all_lists rt fs) as (He & Hw & Hi). cbv zeta in He, Hw, Hi.
  set (final := snd (validate_all rt fs init)) in *.
  assert (Htotal : total_checks final = total_checks (recorded (run_checks rt fs)))
    by (unfold total_checks; by rewrite He, Hw, Hi).
  assert (Hbounds : (19 ≤ total_checks final ≤ 24)%nat).
  { rewrite Htotal, recorded_run_checks_unfolded, !total_checks_record_after by done.
    pose proof (total_checks_env rt fs Hans).
    pose proof (total_checks_credential rt fs Hans).
    destruct (total_checks_presence fs Hans) as (-> & -> & -> & -> & ->). lia. }
  split; [exact Hbounds|].
  unfold success_rate. destruct (Nat.ltb_spec 0 (total_checks final)); [done | lia].
Qed.

Lemma run_records_between_19_and_24_messages_witness :
  let final := snd (main rt0 (fs_full lone_surrogate)) in
  (19 ≤ total_checks final ≤ 24)%nat
  ∧ success_rate final
    = (float_of_len (length (info final)) / float_of_len (total_checks final) * 100)%float.
Proof.
  apply (run_records_between_19_and_24_messages rt0 (fs_full lone_surrogate)).
  intros file_path. eexists. reflexivity.
Defined.

(** X18. In every run, also one that an exception leaves: the exit
    status is 0 or 1, the lists the process ends with are the lists the
    checks recorded, and a recorded error always ends in status 1 (status
    0 is never reached with an error on the list). *)
Theorem recorded_error_gives_status_one rt fs :
  let final := snd (main rt fs) in
  (fst (main rt fs) = 0%Z ∨ fst (main rt fs) = 1%Z)
  ∧ errors final = errors (recorded (run_checks rt fs))
  ∧ warnings final = warnings (recorded (run_checks rt fs))
  ∧ info final = info (recorded (run_checks rt fs))
  ∧ (errors final ≠ [] → fst (main rt fs) = 1%Z).
Proof.
  cbv zeta. rewrite snd_main.
  destruct (validate_all_lists rt fs) as (He & Hw & Hi). cbv zeta in He, Hw, Hi.
  rewrite He, Hw, Hi. set (d := recorded (run_checks rt fs)).
  assert (Hret : match fst (validate_all rt fs init) with
                 | Ret success =>
                     success = match errors d with [] => true | _ :: _ => false end
                 | Raise _ => True
                 end).
  { unfold validate_all.
    erewrite bind_ret_run by reflexivity.
    rewrite bind_run, (local_run_checks rt fs _). fold d.
    destruct (fst (run_checks rt fs init)) as [[]|e]; [|done].
    erewrite bind_ret_run by reflexivity.
    set (s1 := record_after _ d).
    assert (Hs1 : errors s1 = errors d ∧ warnings s1 = warnings d) by done.
    destruct Hs1 as (-> & ->).
    do 5 (rewrite bind_run;
          match goal with
          | |- context [match ?m ?s with _ => _ end] =>
              destruct (m s) as [[[]|?] ?]; [|done]
          end).
    destruct (errors d); [destruct (warnings d)|];
      (rewrite bind_run;
       match goal with
       | |- context [match ?m ?s with _ => _ end] =>
           destruct (m s) as [[[]|?] ?]; [|done]
       end); reflexivity. }
  unfold main. destruct (validate_all rt fs init) as [[success|e] s]; cbn [fst] in *.
  - subst success. destruct (errors d); repeat split; auto; done.
  - repeat split; auto.
Qed.

(* ===================================================================== *)
(** ** The printed report *)
(* ===================================================================== *)

Lemma printed_nil s : printed s [] = s.
Proof. unfold printed. rewrite app_nil_r. by destruct s. Qed.

Lemma for_each_print_run (rt : runtime) (f : pystr → pystr) msgs :
  Forall (λ msg, encodable (f msg) = true) msgs →
  ∀ s, for_each msgs (λ msg, print rt (f msg)) s = (Ret tt, printed s (map f msgs)).
Proof.
  induction 1 as [|msg msgs Hmsg _ IH]; intros s; cbn [for_each map].
  - by rewrite printed_nil.
  - rewrite (bind_ret_run _ _ _ _ _ (print_run rt _ s Hmsg)), IH.
    by rewrite printed_printed.
Qed.

Lemma print_section_run (rt : runtime) header msgs s :
  encodable header = true →
  Forall (λ msg, encodable msg = true) msgs →
  print_section rt header msgs s = (Ret tt, printed s (section_lines header msgs)).
Proof.
  intros Hh Hmsgs. unfold print_section, section_lines.
  destruct msgs as [|msg msgs]; cbn [when].
  - by rewrite printed_nil.
  - rewrite (bind_ret_run _ _ _ _ _ (print_run rt _ s Hh)).
    erewrite bind_ret_run.
    2:{ apply (for_each_print_run rt (λ msg, py "   " ++ msg)).
        eapply Forall_impl; [exact Hmsgs|].
        intros m Hm. cbv beta. by rewrite encodable_app, Hm. }
    rewrite (print_run rt (py "") _ eq_refl).
    by rewrite !printed_printed.
Qed.

(** The checks print nothing. *)
Lemma recorded_run_checks_stdout rt fs :
  exists_answers fs → stdout (recorded (run_checks rt fs)) = [].
Proof.
  intros Hans. rewrite recorded_run_checks_unfolded by done.
  destruct (recorded_presence fs Hans) as (-> & -> & -> & -> & ->).
  cbn [record_after stdout app]. rewrite !app_nil_r.
  assert (stdout (recorded (validate_env_file rt fs)) = []) as ->.
  { unfold recorded. destruct (Hans env_file) as [[|] Hex].
    - destruct (fs_lines fs env_file) as [lines [e|]] eqn:Hread.
      + by rewrite (validate_env_file_unreadable rt fs lines e init Hex Hread).
      + destruct (env_lines_returns rt lines ∅) as [env_vars Hrun].
        by rewrite (validate_env_file_readable rt fs lines env_vars init Hex Hread Hrun).
    - rewrite (validate_env_file_absent rt fs init Hex).
      by destruct (fs_exists fs env_template) as [[|]|e]. }
  unfold recorded. destruct (Hans google_services) as [[|] Hex].
  - pose proof (validate_firebase_config_present rt fs init Hex) as H. cbv zeta in H.
    destruct (fs_json fs google_services) as [config|[msg|msg]];
      [destruct H as [[m ->]|[m ->]] | rewrite H | destruct H as [[m ->]|[m ->]]];
      reflexivity.
  - rewrite (validate_firebase_config_absent rt fs init Hex).
    by destruct (fs_exists fs google_services_template) as [[|]|e].
Qed.

(** The run of [validate_all], line by line, when every [Path.exists]
    answers and every recorded message can be printed. *)
Lemma validate_all_report rt fs :
  exists_answers fs →
  let d := recorded (run_checks rt fs) in
  printable d →
  validate_all rt fs init =
  (Ret (match errors d with [] => true | _ :: _ => false end),
   {| errors := errors d; warnings := warnings d; info := info d;
      stdout :=
        [py "🔍 Validating Aalay project configuration..." ++ nl]
        ++ section_lines (py "✅ Configuration Status:") (info d)
        ++ section_lines (py "⚠️  Warnings:") (warnings d)
        ++ section_lines (py "❌ Errors:") (errors d)
        ++ [py "📊 Summary: " ++ str_of_nat (length (info d)) ++ py " passed, "
            ++ str_of_nat (length (warnings d)) ++ py " warnings, "
            ++ str_of_nat (length (errors d)) ++ py " errors";
            py "🎯 Success rate: " ++ format_1f rt (success_rate d) ++ py "%";
            match errors d, warnings d with
            | _ :: _, _ =>
                nl ++ py "❗ Critical errors found. Please fix them before building."
            | [], _ :: _ =>
                nl ++ py "⚡ Warnings found. Consider addressing them for optimal setup."
            | [], [] =>
                nl ++ py "🎉 All checks passed! Your configuration looks good."
            end] |}).
Proof.
  intros Hans d Hd. destruct (printable_lists d Hd) as (Pi & Pw & Pe).
  unfold validate_all.
  erewrite bind_ret_run by reflexivity.
  erewrite bind_ret_run
    by (apply returned_local_run;
        [by apply safe_returned, safe_run_checks | apply local_run_checks]).
  fold d. erewrite bind_ret_run by reflexivity.
  set (s1 := record_after _ d).
  assert (Hs1 : s1 = {| errors := errors d; warnings := warnings d; info := info d;
                        stdout := [py "🔍 Validating Aalay project configuration..." ++ nl] |}).
  { unfold s1, record_after. cbn [errors warnings info stdout init app].
    unfold d at 4. by rewrite recorded_run_checks_stdout. }
  assert (Hrate : success_rate s1 = success_rate d)
    by (apply success_rate_same_lists; by rewrite Hs1).
  rewrite Hrate. clear Hrate. rewrite Hs1. clear Hs1 s1.
  cbn [errors warnings info].
  erewrite bind_ret_run by (by apply print_section_run).
  erewrite bind_ret_run by (by apply print_section_run).
  erewrite bind_ret_run by (by apply print_section_run).
  erewrite bind_ret_run
    by (apply print_run; rewrite !encodable_app, !encodable_str_of_nat; reflexivity).
  erewrite bind_ret_run
    by (apply print_run; rewrite !encodable_app, format_1f_encodable; reflexivity).
  destruct (errors d) as [|e es]; [destruct (warnings d) as [|w ws]|];
    (erewrite bind_ret_run by reflexivity); cbn [mret M_ret ret];
    unfold printed; cbn [errors warnings info stdout];
    rewrite <- ?app_assoc; reflexivity.
Qed.

(** X16. In a run that no exception leaves (every [Path.exists]
    answers and every recorded message can be printed), what is printed
    is, in this order: the opening line; the info messages, then the
    warnings, then the errors, each list under its header, indented by
    three spaces and followed by an empty line, a list that is empty
    being left out with its header; the summary line with the three
    counts; the success rate; one closing line. The checks themselves
    print nothing, and every recorded message is printed. *)
Theorem report_prints_every_message_in_sections rt fs :
  exists_answers fs →
  printable (recorded (run_checks rt fs)) →
  let final := snd (main rt fs) in
  stdout final =
    [py "🔍 Validating Aalay project configuration..." ++ nl]
    ++ section_lines (py "✅ Configuration Status:") (info final)
    ++ section_lines (py "⚠️  Warnings:") (warnings final)
    ++ section_lines (py "❌ Errors:") (errors final)
    ++ [py "📊 Summary: " ++ str_of_nat (length (info final)) ++ py " passed, "
        ++ str_of_nat (length (warnings final)) ++ py " warnings, "
        ++ str_of_nat (length (errors final)) ++ py " errors";
        py "🎯 Success rate: " ++ format_1f rt (success_rate final) ++ py "%";
        match errors final, warnings final with
        | _ :: _, _ =>
            nl ++ py "❗ Critical errors found. Please fix them before building."
        | [], _ :: _ =>
            nl ++ py "⚡ Warnings found. Consider addressing them for optimal setup."
        | [], [] =>
            nl ++ py "🎉 All checks passed! Your configuration looks good."
        end]
  ∧ ∀ msg, msg ∈ info final ++ warnings final ++ errors final →
      py "   " ++ msg ∈ stdout final.
Proof.
  intros Hans Hd. cbv zeta. unfold main.
  rewrite (validate_all_report rt fs Hans Hd). cbn [fst snd errors warnings info stdout].
  set (d := recorded (run_checks rt fs)).
  assert (Hrate : success_rate
                    {| errors := errors d; warnings := warnings d; info := info d;
                       stdout := [py "🔍 Validating Aalay project configuration..." ++ nl]
                         ++ section_lines (py "✅ Configuration Status:") (info d)
                         ++ section_lines (py "⚠️  Warnings:") (warnings d)
                         ++ section_lines (py "❌ Errors:") (errors d)
                         ++ [py "📊 Summary: " ++ str_of_nat (length (info d))
                             ++ py " passed, "
                             ++ str_of_nat (length (warnings d)) ++ py " warnings, "
                             ++ str_of_nat (length (errors d)) ++ py " errors";
                             py "🎯 Success rate: " ++ format_1f rt (success_rate d)
                             ++ py "%";
                             match errors d, warnings d with
                             | _ :: _, _ =>
                                 nl ++ py "❗ Critical errors found. Please fix them before building."
                             | [], _ :: _ =>
                                 nl ++ py "⚡ Warnings found. Consider addressing them for optimal setup."
                             | [], [] =>
                                 nl ++ py "🎉 All checks passed! Your configuration looks good."
                             end] |}
                  = success_rate d) by (by apply success_rate_same_lists).
  rewrite Hrate. split; [reflexivity|].
  assert (Hsec : ∀ header msgs msg,
             msg ∈ msgs → py "   " ++ msg ∈ section_lines header msgs).
  { intros header msgs msg Hin. unfold section_lines.
    destruct msgs as [|m0 msgs]; [by apply elem_of_nil in Hin|].
    right. apply elem_of_app. left.
    apply (list_elem_of_fmap_2 (λ msg, py "   " ++ msg)) in Hin. exact Hin. }
  intros msg. rewrite !elem_of_app. intros [H|[H|H]].
  - right. left. by apply Hsec.
  - right. right. left. by apply Hsec.
  - right. right. right. left. by apply Hsec.
Qed.

Lemma report_prints_every_message_in_sections_witness :
  let final := snd (main rt0 fs_empty) in
  stdout final =
    [py "🔍 Validating Aalay project configuration..." ++ nl]
    ++ section_lines (py "✅ Configuration Status:") (info final)
    ++ section_lines (py "⚠️  Warnings:") (warnings final)
    ++ section_lines (py "❌ Errors:") (errors final)
    ++ [py "📊 Summary: " ++ str_of_nat (length (info final)) ++ py " passed, "
        ++ str_of_nat (length (warnings final)) ++ py " warnings, "
        ++ str_of_nat (length (errors final)) ++ py " errors";
        py "🎯 Success rate: " ++ format_1f rt0 (success_rate final) ++ py "%";
        match errors final, warnings final with
        | _ :: _, _ =>
            nl ++ py "❗ Critical errors found. Please fix them before building."
        | [], _ :: _ =>
            nl ++ py "⚡ Warnings found. Consider addressing them for optimal setup."
        | [], [] =>
            nl ++ py "🎉 All checks passed! Your configuration looks good."
        end]
  ∧ ∀ msg, msg ∈ info final ++ warnings final ++ errors final →
      py "   " ++ msg ∈ stdout final.
Proof.
  apply (report_prints_every_message_in_sections rt0 fs_empty).
  - intros file_path. eexists. reflexivity.
  - decide_by_computation.
Defined.

(** X17. In a run that no exception leaves (every [Path.exists]
    answers and every recorded message can be printed), the last line
    printed tells the outcome: "All checks passed" exactly when no error
    and no warning was recorded, "Warnings found" exactly when warnings
    but no error were recorded, and "Critical errors found" exactly when
    the exit status is 1. *)
Theorem closing_line_tells_the_outcome rt fs :
  exists_answers fs →
  printable (recorded (run_checks rt fs)) →
  let final := snd (main rt fs) in
  (last (stdout final)
   = Some (nl ++ py "🎉 All checks passed! Your configuration looks good.")
   ↔ errors final = [] ∧ warnings final = [])
  ∧ (last (stdout final)
     = Some (nl ++ py "⚡ Warnings found. Consider addressing them for optimal setup.")
     ↔ errors final = [] ∧ warnings final ≠ [])
  ∧ (last (stdout final)
     = Some (nl ++ py "❗ Critical errors found. Please fix them before building.")
     ↔ fst (main rt fs) = 1%Z).
Proof.
  intros Hans Hd. cbv zeta. unfold main.
  rewrite (validate_all_report rt fs Hans Hd). cbn [fst snd errors warnings stdout].
  set (d := recorded (run_checks rt fs)).
  set (passed := nl ++ py "🎉 All checks passed! Your configuration looks good.").
  set (warned := nl ++ py "⚡ Warnings found. Consider addressing them for optimal setup.").
  set (failed := nl ++ py "❗ Critical errors found. Please fix them before building.").
  assert (D1 : passed ≠ warned) by (intros H; vm_compute in H; discriminate H).
  assert (D2 : passed ≠ failed) by (intros H; vm_compute in H; discriminate H).
  assert (D3 : warned ≠ failed) by (intros H; vm_compute in H; discriminate H).
  clearbody passed warned failed.
  match goal with
  | |- context [last (?a ++ ?b ++ ?c ++ ?e ++ [?x; ?y; ?z])] =>
      replace (last (a ++ b ++ c ++ e ++ [x; y; z])) with (Some z)
  end.
  2:{ match goal with
      | |- _ = last (?a ++ ?b ++ ?c ++ ?e ++ [?x; ?y; ?z]) =>
          change (a ++ b ++ c ++ e ++ [x; y; z])
            with (a ++ b ++ c ++ e ++ [x; y] ++ [z])
      end.
      by rewrite !app_assoc, last_snoc. }
  generalize (section_lines (py "✅ Configuration Status:") (info d)).
  generalize (section_lines (py "⚠️  Warnings:") (warnings d)).
  generalize (section_lines (py "❌ Errors:") (errors d)).
  intros _ _ _.
  destruct (errors d) as [|e es]; [destruct (warnings d) as [|w ws]|];
    (split; [split|split; split]).
  - done.
  - done.
  - intros H. destruct D1. congruence.
  - intros [_ H]. by destruct H.
  - intros H. destruct D2. congruence.
  - intros H. discriminate H.
  - intros H. destruct D1. congruence.
  - intros [_ H]. discriminate H.
  - done.
  - done.
  - intros H. destruct D3. congruence.
  - intros H. discriminate H.
  - intros H. destruct D2. congruence.
  - intros [H _]. discriminate H.
  - intros H. destruct D3. congruence.
  - intros [H _]. discriminate H.
  - done.
  - done.
Qed.

Lemma closing_line_tells_the_outcome_witness :
  last (stdout (snd (main rt0 fs_empty)))
  = Some (nl ++ py "❗ Critical errors found. Please fix them before building.")
  ↔ fst (main rt0 fs_empty) = 1%Z.
Proof.
  apply (closing_line_tells_the_outcome rt0 fs_empty).
  - intros file_path. eexists. reflexivity.
  - decide_by_computation.
Defined.
